(** * The auto-translate plugin: preference store, posting hook, HTTP surface

    A shallow embedding of [server/plugin.go].  Go strings and byte slices
    are sequences of bytes; both are modelled by [string], one [ascii] per
    byte.  The host platform behind [p.API], the two remote AWS services and
    the [encoding/json] and [unicode/utf8] packages are not part of the
    repository: the first two are modelled by a store, a table of posts and
    oracles, the last two by executable definitions that follow the Go
    standard library. *)

From Stdlib Require Import ZArith String Ascii DecimalString Decimal Lia Bool.
From stdpp Require Import base option gmap strings list.

#[local] Open Scope string_scope.
#[local] Open Scope Z_scope.
#[local] Arguments append _ _ : simpl nomatch.

(** ** Bytes *)

Definition byteZ (c : ascii) : Z := Z.of_N (N_of_ascii c).
Definition zbyte (z : Z) : ascii := ascii_of_N (Z.to_N z).

(** The double quote, the backslash and the line feed cannot be written
    inside a string literal. *)
Definition dq : ascii := zbyte 0x22.
Definition bslash : ascii := zbyte 0x5C.
Definition nl : string := String (zbyte 0x0A) "".

Fixpoint str_take (n : nat) (s : string) : string :=
  match n, s with
  | S n', String c s' => String c (str_take n' s')
  | _, _ => ""
  end.

Fixpoint str_drop (n : nat) (s : string) : string :=
  match n, s with
  | S n', String _ s' => str_drop n' s'
  | _, _ => s
  end.

(** ** unicode/utf8 *)

Module utf8.

Definition RuneError : Z := 0xFFFD.
Definition RuneSelf : Z := 0x80.
Definition MaxRune : Z := 0x10FFFF.
Definition locb : Z := 0x80.
Definition hicb : Z := 0xBF.

(** The [first] table together with [acceptRanges]: for a leading byte,
    the length of the sequence and the range accepted for the second
    byte; [None] for ASCII and for bytes that cannot lead. *)
Definition first (s0 : Z) : option (nat * Z * Z) :=
  if s0 <? 0xC2 then None
  else if s0 <=? 0xDF then Some (2%nat, locb, hicb)
  else if s0 =? 0xE0 then Some (3%nat, 0xA0, hicb)
  else if s0 <=? 0xEC then Some (3%nat, locb, hicb)
  else if s0 =? 0xED then Some (3%nat, locb, 0x9F)
  else if s0 <=? 0xEF then Some (3%nat, locb, hicb)
  else if s0 =? 0xF0 then Some (4%nat, 0x90, hicb)
  else if s0 <=? 0xF3 then Some (4%nat, locb, hicb)
  else if s0 =? 0xF4 then Some (4%nat, locb, 0x8F)
  else None.

Definition cont (b : Z) : bool := (locb <=? b) && (b <=? hicb).

Definition DecodeRuneInString (s : string) : Z * nat :=
  match s with
  | "" => (RuneError, 0%nat)
  | String c0 t0 =>
    let s0 := byteZ c0 in
    if s0 <? RuneSelf then (s0, 1%nat) else
    match first s0 with
    | None => (RuneError, 1%nat)
    | Some (sz, lo, hi) =>
      if (String.length s <? sz)%nat then (RuneError, 1%nat) else
      match t0 with
      | "" => (RuneError, 1%nat)
      | String c1 t1 =>
        let s1 := byteZ c1 in
        if (s1 <? lo) || (hi <? s1) then (RuneError, 1%nat) else
        if (sz <=? 2)%nat then
          (Z.lor (Z.shiftl (Z.land s0 0x1F) 6) (Z.land s1 0x3F), 2%nat)
        else
        match t1 with
        | "" => (RuneError, 1%nat)
        | String c2 t2 =>
          let s2 := byteZ c2 in
          if negb (cont s2) then (RuneError, 1%nat) else
          if (sz <=? 3)%nat then
            (Z.lor (Z.lor (Z.shiftl (Z.land s0 0x0F) 12)
                          (Z.shiftl (Z.land s1 0x3F) 6))
                   (Z.land s2 0x3F), 3%nat)
          else
          match t2 with
          | "" => (RuneError, 1%nat)
          | String c3 _ =>
            let s3 := byteZ c3 in
            if negb (cont s3) then (RuneError, 1%nat) else
            (Z.lor (Z.lor (Z.lor (Z.shiftl (Z.land s0 0x07) 18)
                                 (Z.shiftl (Z.land s1 0x3F) 12))
                          (Z.shiftl (Z.land s2 0x3F) 6))
                   (Z.land s3 0x3F), 4%nat)
          end
        end
      end
    end
  end.

(** [byte(x)]: conversion of a rune to a byte keeps the low eight bits. *)
Definition byte (x : Z) : Z := x mod 256.

Definition EncodeRune (r : Z) : string :=
  if (0 <=? r) && (r <=? 0x7F) then String (zbyte r) ""
  else if (0 <=? r) && (r <=? 0x7FF) then
    String (zbyte (Z.lor 0xC0 (byte (Z.shiftr r 6))))
      (String (zbyte (Z.lor 0x80 (Z.land (byte r) 0x3F))) "")
  else
    let r := if (r <? 0) || (MaxRune <? r) || ((0xD800 <=? r) && (r <=? 0xDFFF))
             then RuneError else r in
    if r <=? 0xFFFF then
      String (zbyte (Z.lor 0xE0 (byte (Z.shiftr r 12))))
        (String (zbyte (Z.lor 0x80 (Z.land (byte (Z.shiftr r 6)) 0x3F)))
           (String (zbyte (Z.lor 0x80 (Z.land (byte r) 0x3F))) ""))
    else
      String (zbyte (Z.lor 0xF0 (byte (Z.shiftr r 18))))
        (String (zbyte (Z.lor 0x80 (Z.land (byte (Z.shiftr r 12)) 0x3F)))
           (String (zbyte (Z.lor 0x80 (Z.land (byte (Z.shiftr r 6)) 0x3F)))
              (String (zbyte (Z.lor 0x80 (Z.land (byte r) 0x3F))) ""))).

(** [utf8.ValidString]; every round consumes at least one byte, so the
    length of the string is fuel enough. *)
Fixpoint ValidString_loop (fuel : nat) (s : string) : bool :=
  match fuel with
  | O => match s with "" => true | _ => false end
  | S fuel' =>
    match s with
    | "" => true
    | String c rest =>
      if byteZ c <? RuneSelf then ValidString_loop fuel' rest
      else
        let '(r, size) := DecodeRuneInString s in
        if (size =? 1)%nat then false
        else ValidString_loop fuel' (str_drop size s)
    end
  end.

Definition ValidString (s : string) : bool :=
  ValidString_loop (String.length s) s.

End utf8.

(** ** encoding/json *)

Module json.

(** *** Encoding of strings ([encodeState.string] with [escapeHTML]) *)

Definition hex : string := "0123456789abcdef".

Definition hexChar (n : Z) : ascii :=
  match String.get (Z.to_nat n) hex with
  | Some c => c
  | None => "0"%char
  end.

(** [htmlSafeSet]: the ASCII bytes written as they are. *)
Definition htmlSafeSet (b : Z) : bool :=
  (0x20 <=? b) && (b <? 0x80)
  && negb ((b =? 0x22) || (b =? 0x26) || (b =? 0x3C) || (b =? 0x3E) || (b =? 0x5C)).

(** The escape written for an ASCII byte outside [htmlSafeSet]. *)
Definition escapeByte (c : ascii) : string :=
  let b := byteZ c in
  if (b =? 0x5C) || (b =? 0x22) then String bslash (String c "")
  else if b =? 0x0A then String bslash "n"
  else if b =? 0x0D then String bslash "r"
  else if b =? 0x09 then String bslash "t"
  else String bslash "u00" ++ String (hexChar (Z.shiftr b 4)) (String (hexChar (Z.land b 0xF)) "").

Fixpoint string_loop (fuel : nat) (src : string) : string :=
  match fuel with
  | O => ""
  | S fuel' =>
    match src with
    | "" => ""
    | String c rest =>
      let b := byteZ c in
      if b <? utf8.RuneSelf then
        (if htmlSafeSet b then String c "" else escapeByte c)
          ++ string_loop fuel' rest
      else
        let '(r, size) := utf8.DecodeRuneInString (str_take 4 src) in
        if (r =? utf8.RuneError) && (size =? 1)%nat then
          String bslash "ufffd" ++ string_loop fuel' rest
        else if (r =? 0x2028) || (r =? 0x2029) then
          String bslash "u202" ++ String (hexChar (Z.land r 0xF)) ""
            ++ string_loop fuel' (str_drop size src)
        else
          str_take size src ++ string_loop fuel' (str_drop size src)
    end
  end.

Definition encodeString (s : string) : string :=
  String dq (string_loop (String.length s) s ++ String dq "").

Definition encodeBool (b : bool) : string := if b then "true" else "false".

(** [strconv.FormatInt(i, 10)], which is also how an integer field is
    encoded. *)
Definition FormatInt (i : Z) : string := NilEmpty.string_of_int (Z.to_int i).

(** One member of an encoded struct: the quoted name, a colon, the
    encoded value. *)
Definition member (name : string) (v : string) : string :=
  String dq (name ++ String dq (":" ++ v)).

(** *** Decoding *)

#[local] Set Warnings "-register-all".

Inductive value : Type :=
| Null
| Bool (b : bool)
| Number (lit : string)
| Str (s : string)
| Array (l : list value)
| Object (l : list (string * value)).

Definition isSpace (b : Z) : bool :=
  (b =? 0x20) || (b =? 0x09) || (b =? 0x0D) || (b =? 0x0A).

Fixpoint skipSpace (s : string) : string :=
  match s with
  | String c r => if isSpace (byteZ c) then skipSpace r else s
  | "" => ""
  end.

Definition hexVal (b : Z) : option Z :=
  if (0x30 <=? b) && (b <=? 0x39) then Some (b - 0x30)
  else if (0x61 <=? b) && (b <=? 0x66) then Some (b - 0x61 + 10)
  else if (0x41 <=? b) && (b <=? 0x46) then Some (b - 0x41 + 10)
  else None.

(** [getu4]: the rune of a [\uXXXX] escape at the head of [s]; [None]
    where Go returns -1. *)
Definition getu4 (s : string) : option Z :=
  match s with
  | String c0 (String c1 (String h1 (String h2 (String h3 (String h4 _))))) =>
    if (byteZ c0 =? 0x5C) && (byteZ c1 =? 0x75) then
      match hexVal (byteZ h1), hexVal (byteZ h2), hexVal (byteZ h3), hexVal (byteZ h4) with
      | Some a, Some b, Some c, Some d => Some (((a * 16 + b) * 16 + c) * 16 + d)
      | _, _, _, _ => None
      end
    else None
  | _ => None
  end.

(** [utf16.IsSurrogate] and [utf16.DecodeRune]. *)
Definition IsSurrogate (r : Z) : bool := (0xD800 <=? r) && (r <? 0xE000).

Definition utf16_DecodeRune (r1 r2 : Z) : Z :=
  if (0xD800 <=? r1) && (r1 <? 0xDC00) && (0xDC00 <=? r2) && (r2 <? 0xE000)
  then Z.lor (Z.shiftl (r1 - 0xD800) 10) (r2 - 0xDC00) + 0x10000
  else utf8.RuneError.

(** The byte an escape [\c] other than [\u] stands for. *)
Definition simpleEscape (b : Z) : option ascii :=
  if (b =? 0x22) || (b =? 0x5C) || (b =? 0x2F) then Some (zbyte b)
  else if b =? 0x62 then Some (zbyte 0x08)
  else if b =? 0x66 then Some (zbyte 0x0C)
  else if b =? 0x6E then Some (zbyte 0x0A)
  else if b =? 0x72 then Some (zbyte 0x0D)
  else if b =? 0x74 then Some (zbyte 0x09)
  else None.

(** One round of [unquote]: the bytes produced by the item at the head
    of [s] and what follows it; [None] on a syntax error.  The head is
    not the closing quote. *)
Definition unquote_step (s : string) : option (string * string) :=
  match s with
  | "" => None
  | String c rest =>
    let b := byteZ c in
    if b =? 0x5C then
      match rest with
      | "" => None
      | String e rest' =>
        if byteZ e =? 0x75 then
          match getu4 s with
          | None => None
          | Some rr =>
            let after := str_drop 6 s in
            if IsSurrogate rr then
              match getu4 after with
              | Some rr1 =>
                let dec := utf16_DecodeRune rr rr1 in
                if dec =? utf8.RuneError
                then Some (utf8.EncodeRune utf8.RuneError, after)
                else Some (utf8.EncodeRune dec, str_drop 6 after)
              | None => Some (utf8.EncodeRune utf8.RuneError, after)
              end
            else Some (utf8.EncodeRune rr, after)
          end
        else
          match simpleEscape (byteZ e) with
          | Some ch => Some (String ch "", rest')
          | None => None
          end
      end
    else if b <? 0x20 then None
    else if b <? utf8.RuneSelf then Some (String c "", rest)
    else
      let '(rr, size) := utf8.DecodeRuneInString s in
      Some (utf8.EncodeRune rr, str_drop size s)
  end.

(** [unquote] from just after the opening quote: the decoded string and
    what follows the closing quote. *)
Fixpoint unquote_loop (fuel : nat) (s : string) : option (string * string) :=
  match fuel with
  | O => None
  | S fuel' =>
    match s with
    | "" => None
    | String c rest =>
      if byteZ c =? 0x22 then Some ("", rest)
      else
        match unquote_step s with
        | None => None
        | Some (out, r) =>
          match unquote_loop fuel' r with
          | Some (o, r') => Some (out ++ o, r')
          | None => None
          end
        end
    end
  end.

Definition unquote (s : string) : option (string * string) :=
  unquote_loop (String.length s) s.

Definition isDigit (b : Z) : bool := (0x30 <=? b) && (b <=? 0x39).

Fixpoint digits (s : string) : string * string :=
  match s with
  | String c r =>
    if isDigit (byteZ c) then let '(d, r') := digits r in (String c d, r')
    else ("", s)
  | "" => ("", "")
  end.

(** A run of at least one digit. *)
Definition digits1 (s : string) : option (string * string) :=
  match digits s with
  | ("", _) => None
  | (d, r) => Some (d, r)
  end.

Definition number_int (s : string) : option (string * string) :=
  match s with
  | String c r =>
    if byteZ c =? 0x30 then Some ("0", r)
    else if isDigit (byteZ c) then digits1 s
    else None
  | "" => None
  end.

Definition number_frac (s : string) : option (string * string) :=
  match s with
  | String c r =>
    if byteZ c =? 0x2E then
      match digits1 r with
      | Some (d, r') => Some (String c d, r')
      | None => None
      end
    else Some ("", s)
  | "" => Some ("", "")
  end.

Definition number_exp (s : string) : option (string * string) :=
  match s with
  | String c r =>
    if (byteZ c =? 0x65) || (byteZ c =? 0x45) then
      match r with
      | String sg r1 =>
        if (byteZ sg =? 0x2B) || (byteZ sg =? 0x2D) then
          match digits1 r1 with
          | Some (d, r') => Some (String c (String sg d), r')
          | None => None
          end
        else
          match digits1 r with
          | Some (d, r') => Some (String c d, r')
          | None => None
          end
      | "" => None
      end
    else Some ("", s)
  | "" => Some ("", "")
  end.

Definition number (s : string) : option (string * string) :=
  let '(sign, s1) :=
    match s with
    | String c r => if byteZ c =? 0x2D then ("-", r) else ("", s)
    | "" => ("", "")
    end in
  match number_int s1 with
  | None => None
  | Some (i, s2) =>
    match number_frac s2 with
    | None => None
    | Some (f, s3) =>
      match number_exp s3 with
      | None => None
      | Some (e, s4) => Some (sign ++ i ++ f ++ e, s4)
      end
    end
  end.

Definition literal (lit : string) (v : value) (s : string) : option (value * string) :=
  if String.prefix lit s then Some (v, str_drop (String.length lit) s) else None.

(** The scanner refuses an object or an array opened inside this many
    others ([pushParseState]). *)
Definition maxNestingDepth : Z := 10000.

(** The scanner and the decoder in one pass: the first JSON value of
    [s] and the bytes after it, [depth] being the number of objects and
    arrays open around it.  Every call consumes a byte, so any fuel above
    the length of [s] is enough. *)
Fixpoint parseValue (fuel : nat) (depth : Z) (s : string) : option (value * string) :=
  match fuel with
  | O => None
  | S fuel' =>
    match skipSpace s with
    | "" => None
    | String c rest =>
      let b := byteZ c in
      if b =? 0x7B then
        if maxNestingDepth <? depth + 1 then None else
        match skipSpace rest with
        | "" => None
        | String c' rest' =>
          if byteZ c' =? 0x7D then Some (Object [], rest')
          else parseMembers fuel' (depth + 1) rest []
        end
      else if b =? 0x5B then
        if maxNestingDepth <? depth + 1 then None else
        match skipSpace rest with
        | "" => None
        | String c' rest' =>
          if byteZ c' =? 0x5D then Some (Array [], rest')
          else parseElements fuel' (depth + 1) rest []
        end
      else if b =? 0x22 then
        match unquote rest with
        | Some (str, r) => Some (Str str, r)
        | None => None
        end
      else if b =? 0x74 then literal "true" (Bool true) (String c rest)
      else if b =? 0x66 then literal "false" (Bool false) (String c rest)
      else if b =? 0x6E then literal "null" Null (String c rest)
      else
        match number (String c rest) with
        | Some (lit, r) => Some (Number lit, r)
        | None => None
        end
    end
  end
with parseMembers (fuel : nat) (depth : Z) (s : string) (acc : list (string * value))
  : option (value * string) :=
  match fuel with
  | O => None
  | S fuel' =>
    match skipSpace s with
    | "" => None
    | String c rest =>
      if negb (byteZ c =? 0x22) then None else
      match unquote rest with
      | None => None
      | Some (key, r1) =>
        match skipSpace r1 with
        | "" => None
        | String c2 r2 =>
          if negb (byteZ c2 =? 0x3A) then None else
          match parseValue fuel' depth r2 with
          | None => None
          | Some (v, r3) =>
            match skipSpace r3 with
            | "" => None
            | String c4 r4 =>
              if byteZ c4 =? 0x2C then parseMembers fuel' depth r4 (acc ++ [(key, v)])
              else if byteZ c4 =? 0x7D then Some (Object (acc ++ [(key, v)]), r4)
              else None
            end
          end
        end
      end
    end
  end
with parseElements (fuel : nat) (depth : Z) (s : string) (acc : list value)
  : option (value * string) :=
  match fuel with
  | O => None
  | S fuel' =>
    match parseValue fuel' depth s with
    | None => None
    | Some (v, r1) =>
      match skipSpace r1 with
      | "" => None
      | String c r2 =>
        if byteZ c =? 0x2C then parseElements fuel' depth r2 (acc ++ [v])
        else if byteZ c =? 0x5D then Some (Array (acc ++ [v]), r2)
        else None
      end
    end
  end.

Definition parse (s : string) : option (value * string) :=
  parseValue (S (String.length s)) 0 s.

(** [json.Unmarshal] accepts one value with nothing but white space
    after it ([checkValid]). *)
Definition Unmarshal_value (data : string) : option value :=
  match parse data with
  | Some (v, rest) =>
    match skipSpace rest with
    | "" => Some v
    | _ => None
    end
  | None => None
  end.

(** [Decoder.Decode] reads the first value of the stream ([readValue])
    and decodes that alone.  The scanner ends an object or an array at
    its closing bracket, and any other value at the end of the input or
    at the first byte that does not continue it, be that byte white space
    or not ([stateEndTop] answers [scanEnd] for either): what follows the
    value is never part of the call. *)
Definition Decode_value (body : string) : option value :=
  match parse body with
  | Some (v, _) => Some v
  | None => None
  end.

(** *** Struct fields *)

(** [foldRune]: the smallest rune of the fold orbit of a rune beyond
    ASCII.  Two such orbits hold an ASCII letter, that of the long s
    (U+017F), whose smallest rune is [S], and that of the Kelvin sign
    (U+212A), whose smallest rune is [K]; the smallest rune of any other
    orbit is itself beyond ASCII.  The names of this program's fields are
    ASCII, so a rune outside the two orbits never takes part in a match
    and is kept as it is. *)
Definition foldRune (r : Z) : Z :=
  if r =? 0x17F then 0x53
  else if r =? 0x212A then 0x4B
  else r.

(** [appendFoldedName]: an ASCII byte in upper case, a rune beyond ASCII
    folded. *)
Fixpoint foldName_loop (fuel : nat) (s : string) : string :=
  match fuel with
  | O => ""
  | S fuel' =>
    match s with
    | "" => ""
    | String c rest =>
      let b := byteZ c in
      if b <? utf8.RuneSelf then
        String (if (0x61 <=? b) && (b <=? 0x7A) then zbyte (b - 0x20) else c)
               (foldName_loop fuel' rest)
      else
        let '(r, n) := utf8.DecodeRuneInString s in
        utf8.EncodeRune (foldRune r) ++ foldName_loop fuel' (str_drop n s)
    end
  end.

Definition foldName (s : string) : string := foldName_loop (String.length s) s.

(** The match of a key with a field name when no field has exactly the
    key as its name: the two fold to the same bytes. *)
Definition equalFold (name key : string) : bool :=
  String.eqb (foldName name) (foldName key).

(** The field a key selects: the one of that exact name, else the first
    whose name matches case-insensitively. *)
Definition findField (names : list string) (key : string) : option string :=
  match List.find (String.eqb key) names with
  | Some n => Some n
  | None => List.find (fun n => equalFold n key) names
  end.

End json.

(** ** Data model *)

(** UserInfo is a collection of fields for user info. *)
Record UserInfo : Type := mkUserInfo {
  UserID : string;
  Activated : bool;
  SourceLanguage : string;
  TargetLanguage : string;
}.

(** TranslatedMessage is a collection of fields for translated message. *)
Record TranslatedMessage : Type := mkTranslatedMessage {
  tm_ID : string;
  tm_PostID : string;
  tm_SourceLanguage : string;
  tm_SourceText : string;
  tm_TargetLanguage : string;
  tm_TranslatedText : string;
  tm_UpdateAt : Z;
}.

(** APIErrorResponse as standard response error. *)
Record APIErrorResponse : Type := mkAPIErrorResponse {
  err_ID : string;
  err_Message : string;
  err_StatusCode : Z;
}.

(** The fields of [model.Post] the plugin reads or writes. *)
Record Post : Type := mkPost {
  post_Id : string;
  post_UserId : string;
  post_Message : string;
  post_UpdateAt : Z;
}.

(** [model.AppError], as built by [model.NewAppError]. *)
Record AppError : Type := mkAppError {
  app_Where : string;
  app_Id : string;
  app_DetailedError : string;
  app_StatusCode : Z;
}.

Record configuration : Type := mkConfiguration {
  AWSAccessKeyID : string;
  AWSSecretAccessKey : string;
  AWSRegion : string;
}.

Definition apiErrorNoRecordFound : string := "no_record_found".

Definition StatusOK : Z := 200.
Definition StatusBadRequest : Z := 400.
Definition StatusUnauthorized : Z := 401.
Definition StatusForbidden : Z := 403.
Definition StatusNotFound : Z := 404.
Definition StatusInternalServerError : Z := 500.
Definition StatusNotImplemented : Z := 501.

(** Modelled from the spec: the constant [autoLanguage] is declared in a
    file that is not at hand.  The spec calls the sentinel [auto], and the
    message of [IsValid] below spells it the same way. *)
Definition autoLanguage : string := "auto".

(** Modelled from the spec: the constant [enLanguage] is declared in a file
    that is not at hand.  The spec gives the default target as [en]. *)
Definition enLanguage : string := "en".

(** Modelled from the spec: the configuration check [p.IsValid] is declared
    in a file that is not at hand.  The spec speaks of a plugin configured
    with remote credentials and a region; the check asks for each of the
    three to be present. *)
Definition Plugin_IsValid (c : configuration) : option string :=
  if String.eqb (AWSAccessKeyID c) "" then Some "Must have AWS Access Key ID"
  else if String.eqb (AWSSecretAccessKey c) "" then Some "Must have AWS Secret Access Key"
  else if String.eqb (AWSRegion c) "" then Some "Must have AWS Region"
  else None.

(** ** The JSON forms of the structs *)

Definition zeroUserInfo : UserInfo := mkUserInfo "" false "" "".

(** [json.Marshal] of a [UserInfo]; it has no failing case for a struct of
    strings and booleans, so the error is always nil. *)
Definition Marshal_UserInfo (u : UserInfo) : string * option string :=
  ("{" ++ json.member "user_id" (json.encodeString (UserID u))
    ++ "," ++ json.member "activated" (json.encodeBool (Activated u))
    ++ "," ++ json.member "source_language" (json.encodeString (SourceLanguage u))
    ++ "," ++ json.member "target_language" (json.encodeString (TargetLanguage u))
    ++ "}", None).

Definition Marshal_TranslatedMessage (t : TranslatedMessage) : string * option string :=
  ("{" ++ json.member "id" (json.encodeString (tm_ID t))
    ++ "," ++ json.member "post_id" (json.encodeString (tm_PostID t))
    ++ "," ++ json.member "source_lang" (json.encodeString (tm_SourceLanguage t))
    ++ "," ++ json.member "source_text" (json.encodeString (tm_SourceText t))
    ++ "," ++ json.member "target_lang" (json.encodeString (tm_TargetLanguage t))
    ++ "," ++ json.member "translated_text" (json.encodeString (tm_TranslatedText t))
    ++ "," ++ json.member "update_at" (json.FormatInt (tm_UpdateAt t))
    ++ "}", None).

Definition Marshal_APIErrorResponse (e : APIErrorResponse) : string * option string :=
  ("{" ++ json.member "id" (json.encodeString (err_ID e))
    ++ "," ++ json.member "message" (json.encodeString (err_Message e))
    ++ "," ++ json.member "status_code" (json.FormatInt (err_StatusCode e))
    ++ "}", None).

Definition UserInfo_fields : list string :=
  ["user_id"; "activated"; "source_language"; "target_language"].

(** Storing one member of an object into the struct: a value of the
    field's type is stored, [null] leaves the field, anything else is a
    type error (the flag) and leaves the field; a key that selects no field
    is skipped. *)
Definition storeMember (u : UserInfo) (key : string) (v : json.value) : UserInfo * bool :=
  match json.findField UserInfo_fields key with
  | None => (u, true)
  | Some name =>
    if String.eqb name "activated" then
      match v with
      | json.Bool b => (mkUserInfo (UserID u) b (SourceLanguage u) (TargetLanguage u), true)
      | json.Null => (u, true)
      | _ => (u, false)
      end
    else
      match v with
      | json.Str s =>
        if String.eqb name "user_id" then
          (mkUserInfo s (Activated u) (SourceLanguage u) (TargetLanguage u), true)
        else if String.eqb name "source_language" then
          (mkUserInfo (UserID u) (Activated u) s (TargetLanguage u), true)
        else
          (mkUserInfo (UserID u) (Activated u) (SourceLanguage u) s, true)
      | json.Null => (u, true)
      | _ => (u, false)
      end
  end.

Fixpoint storeMembers (u : UserInfo) (ms : list (string * json.value)) : UserInfo * bool :=
  match ms with
  | [] => (u, true)
  | (key, v) :: ms' =>
    let '(u1, ok1) := storeMember u key v in
    let '(u2, ok2) := storeMembers u1 ms' in
    (u2, ok1 && ok2)
  end.

(** Decoding a value into a [UserInfo]: the struct as filled, and whether
    no type error was met. *)
Definition storeUserInfo (u : UserInfo) (v : json.value) : UserInfo * bool :=
  match v with
  | json.Null => (u, true)
  | json.Object ms => storeMembers u ms
  | _ => (u, false)
  end.

(** [json.Unmarshal(data, &userInfo)] on a zero [userInfo]: [None] for an
    error, of syntax or of type. *)
Definition Unmarshal_UserInfo (data : string) : option UserInfo :=
  match json.Unmarshal_value data with
  | None => None
  | Some v =>
    let '(u, ok) := storeUserInfo zeroUserInfo v in
    if ok then Some u else None
  end.

(** [var info *UserInfo; json.NewDecoder(body).Decode(&info)], the error
    dropped: [None] is the pointer left nil (no first value can be read,
    or it is [null]); any other first value allocates the struct, filled
    as far as the types agree, whatever follows that value. *)
Definition Decode_UserInfo (body : string) : option UserInfo :=
  match json.Decode_value body with
  | None => None
  | Some json.Null => None
  | Some v => Some (fst (storeUserInfo zeroUserInfo v))
  end.

(** ** The world around the plugin *)

(** A value of a websocket payload ([map[string]interface{}]). *)
Inductive anyval : Type :=
| VString (s : string)
| VBool (b : bool).

(** The calls the plugin makes to the host platform and to the two remote
    services, in the order they are made. *)
Inductive Call : Type :=
| CallKVGet (key : string)
| CallKVSet (key value : string)
| CallGetPost (postID : string)
| CallPublishWebSocketEvent (event : string) (payload : gmap string anyval) (broadcastUserId : string)
| CallDetectDominantLanguage (text : string)
| CallTranslateText (text sourceLang targetLang : string).

(** What the host and the remote services answer.  A store access or a
    remote call may fail; the oracles say when. *)
Record Services : Type := mkServices {
  KVGet_error : string → option AppError;
  KVSet_error : string → string → option AppError;
  GetPost_table : gmap string Post;
  DetectDominantLanguage_result : string → option (list string);
  TranslateText_result : string → string → string → option string;
}.

(** The receiver [p]: the active configuration and the services reached
    through it. *)
Record Plugin : Type := mkPlugin {
  getConfiguration : configuration;
  services : Services;
}.

(** The mutable part: the key-value store of the plugin and the log of the
    calls made so far. *)
Record State : Type := mkState {
  kv : gmap string string;
  calls : list Call;
}.

(** A small state monad. *)
Definition M (A : Type) : Type := State → A * State.

#[global] Instance M_ret : MRet M := λ A a s, (a, s).

#[global] Instance M_bind : MBind M :=
  λ A B k m s, let '(a, s') := m s in k a s'.

Definition ret {A : Type} (a : A) : M A := mret a.

Definition call (c : Call) : M unit :=
  λ s, (tt, mkState (kv s) (calls s ++ [c])).

(** [p.API.KVGet]: the bytes stored under the key, nil when there are
    none. *)
Definition KVGet (p : Plugin) (key : string) : M (option string * option AppError) :=
  call (CallKVGet key) ;;
  (λ s, match KVGet_error (services p) key with
        | Some e => ((None, Some e), s)
        | None => ((kv s !! key, None), s)
        end) : M _.

(** [p.API.KVSet]. *)
Definition KVSet (p : Plugin) (key value : string) : M (option AppError) :=
  call (CallKVSet key value) ;;
  (λ s, match KVSet_error (services p) key value with
        | Some e => (Some e, s)
        | None => (None, mkState (<[key := value]> (kv s)) (calls s))
        end) : M _.

(** [p.API.GetPost]. *)
Definition GetPost (p : Plugin) (postID : string) : M (option Post * option AppError) :=
  call (CallGetPost postID) ;;
  ret match GetPost_table (services p) !! postID with
      | Some post => (Some post, None)
      | None => (None, Some (mkAppError "GetPost" "app.post.get.app_error" "" StatusNotFound))
      end.

(** [p.API.PublishWebSocketEvent]. *)
Definition PublishWebSocketEvent (event : string) (payload : gmap string anyval)
    (broadcastUserId : string) : M unit :=
  call (CallPublishWebSocketEvent event payload broadcastUserId).

(** [creds.Get()] on static credentials fails when the key id or the
    secret is empty. *)
Definition credentials_Get (c : configuration) : option string :=
  if String.eqb (AWSAccessKeyID c) "" || String.eqb (AWSSecretAccessKey c) ""
  then Some "EmptyStaticCreds" else None.

(** ** HTTP *)

Record Request : Type := mkRequest {
  req_Path : string;
  req_Header : gmap string string;
  req_Query : gmap string (list string);
  req_Body : string;
}.

(** A response writer: the header map, what was sent by the first
    [WriteHeader] (the status and the headers as they were then), and the
    body written so far. *)
Record ResponseWriter : Type := mkResponseWriter {
  rw_header : gmap string string;
  rw_sent : option (Z * gmap string string);
  rw_body : string;
}.

Definition newResponseWriter : ResponseWriter := mkResponseWriter ∅ None "".

Definition Header_Set (key value : string) (w : ResponseWriter) : ResponseWriter :=
  mkResponseWriter (<[key := value]> (rw_header w)) (rw_sent w) (rw_body w).

(** Only the first [WriteHeader] counts. *)
Definition WriteHeader (code : Z) (w : ResponseWriter) : ResponseWriter :=
  match rw_sent w with
  | Some _ => w
  | None => mkResponseWriter (rw_header w) (Some (code, rw_header w)) (rw_body w)
  end.

(** [w.Write]: sends the header with 200 when none was sent. *)
Definition Write (b : string) (w : ResponseWriter) : ResponseWriter :=
  let w := WriteHeader StatusOK w in
  mkResponseWriter (rw_header w) (rw_sent w) (rw_body w ++ b).

(** [http.Error]. *)
Definition http_Error (error : string) (code : Z) (w : ResponseWriter) : ResponseWriter :=
  let w := Header_Set "Content-Type" "text/plain; charset=utf-8" w in
  let w := Header_Set "X-Content-Type-Options" "nosniff" w in
  let w := WriteHeader code w in
  Write (error ++ nl) w.

(** [http.NotFound]. *)
Definition http_NotFound (w : ResponseWriter) : ResponseWriter :=
  http_Error "404 page not found" StatusNotFound w.

(** The status of the response as the client sees it. *)
Definition rw_status (w : ResponseWriter) : option Z := fst <$> rw_sent w.

Definition toUpper (c : ascii) : ascii :=
  let b := byteZ c in
  if (0x61 <=? b) && (b <=? 0x7A) then zbyte (b - 0x20) else c.

Definition toLower (c : ascii) : ascii :=
  let b := byteZ c in
  if (0x41 <=? b) && (b <=? 0x5A) then zbyte (b + 0x20) else c.

(** [textproto.CanonicalMIMEHeaderKey] on a name made of letters, digits
    and hyphens: the first letter and each letter after a hyphen in upper
    case, the others in lower case. *)
Fixpoint canonicalFrom (upper : bool) (s : string) : string :=
  match s with
  | "" => ""
  | String c r =>
    String (if upper then toUpper c else toLower c)
      (canonicalFrom (byteZ c =? 0x2D) r)
  end.

Definition CanonicalMIMEHeaderKey (s : string) : string := canonicalFrom true s.

(** [r.Header.Get]: the headers of a request are keyed by canonical
    name. *)
Definition Header_Get (r : Request) (key : string) : string :=
  default "" (req_Header r !! CanonicalMIMEHeaderKey key).

(** [r.URL.Query().Get]: the first value of the parameter, else empty. *)
Definition Query_Get (r : Request) (key : string) : string :=
  match req_Query r !! key with
  | Some (v :: _) => v
  | _ => ""
  end.

(** ** The plugin *)

Section Server.

(** The language catalog [languageCodes], a [map[string]string] from
    code to display name, is declared in a file that is not at hand: the
    definitions take it as it comes. *)
Variable languageCodes : gmap string string.

(** [languageCodes[code]]: the zero value for a code that is absent. *)
Definition languageName (code : string) : string :=
  default "" (languageCodes !! code).

(** NewUserInfo returns new user info. *)
Definition NewUserInfo (userID : string) : UserInfo :=
  mkUserInfo userID true autoLanguage enLanguage.

(** IsValid validates user information; [None] is the nil error. *)
Definition IsValid (u : UserInfo) : option string :=
  if String.eqb (UserID u) "" || negb (String.length (UserID u) =? 26)%nat then
    Some "Invalid: user_id field"
  else if String.eqb (SourceLanguage u) "" then
    Some "Invalid: source_language field"
  else if String.eqb (TargetLanguage u) "" then
    Some "Invalid: target_language field"
  else if String.eqb (languageName (SourceLanguage u)) "" then
    Some "Invalid: source_language must be in a supported language code"
  else if String.eqb (languageName (TargetLanguage u)) "" then
    Some "Invalid: target_language must be in a supported language code"
  else if String.eqb (SourceLanguage u) (TargetLanguage u) then
    Some "Invalid: source_language and target_language are equal"
  else if String.eqb (TargetLanguage u) autoLanguage then
    Some ("Invalid: target_language must not be " ++ String dq ("auto" ++ String dq ""))
  else None.

Definition getUserInfo (p : Plugin) (userID : string)
  : M (option UserInfo * option APIErrorResponse) :=
  '(infoBytes, err) ← KVGet p userID;
  match err, infoBytes with
  | None, Some infoBytes =>
    match Unmarshal_UserInfo infoBytes with
    | None =>
      ret (None, Some (mkAPIErrorResponse "unable_to_unmarshal"
                         "Unable to unmarshal json." StatusBadRequest))
    | Some userInfo => ret (Some userInfo, None)
    end
  | _, _ =>
    ret (None, Some (mkAPIErrorResponse apiErrorNoRecordFound
                       "No record found." StatusBadRequest))
  end.

Definition emitUserInfoChange (userInfo : UserInfo) : M unit :=
  PublishWebSocketEvent "info_change"
    (<["user_id" := VString (UserID userInfo)]>
     (<["activated" := VBool (Activated userInfo)]>
      (<["source_language" := VString (SourceLanguage userInfo)]>
       (<["target_language" := VString (TargetLanguage userInfo)]> ∅))))
    (UserID userInfo).

Definition setUserInfo (p : Plugin) (userInfo : UserInfo) : M (option APIErrorResponse) :=
  match IsValid userInfo with
  | Some err =>
    ret (Some (mkAPIErrorResponse "invalid_user_info" err StatusBadRequest))
  | None =>
    let '(jsonUserInfo, err) := Marshal_UserInfo userInfo in
    match err with
    | Some _ =>
      ret (Some (mkAPIErrorResponse "unable_to_unmarshal"
                   "Unable to marshal json." StatusBadRequest))
    | None =>
      err ← KVSet p (UserID userInfo) jsonUserInfo;
      match err with
      | Some _ =>
        ret (Some (mkAPIErrorResponse "unable_to_save"
                     "Unable to save user info." StatusBadRequest))
      | None =>
        emitUserInfoChange userInfo ;;
        ret None
      end
    end
  end.

Definition getActivatedString (u : UserInfo) : string :=
  if Activated u then "on" else "off".

(** The first language the detection service names for the text.  The AWS
    session is taken to open ([session.Must] panics otherwise). *)
Definition detectLanguage (p : Plugin) (text : string) : M (string * option string) :=
  let configuration := getConfiguration p in
  match credentials_Get configuration with
  | Some _ => ret ("", Some "Invalid AWS credentials")
  | None =>
    call (CallDetectDominantLanguage text) ;;
    match DetectDominantLanguage_result (services p) text with
    | Some (language :: _) => ret (language, None)
    | _ => ret ("", Some "Failed to detect language")
    end
  end.

Definition translateText (p : Plugin) (text sourceLang targetLang : string)
  : M (string * option AppError) :=
  let configuration := getConfiguration p in
  match credentials_Get configuration with
  | Some _ =>
    ret ("", Some (mkAppError "translateText" "BadCredentials"
                     "Invalid AWS credentials" StatusForbidden))
  | None =>
    call (CallTranslateText text sourceLang targetLang) ;;
    match TranslateText_result (services p) text sourceLang targetLang with
    | None =>
      ret ("", Some (mkAppError "translateText" "TranslationFailed"
                       "Translation API error" StatusInternalServerError))
    | Some translatedText => ret (translatedText, None)
    end
  end.

(** [languageCodes[code]] in its two-valued form, with the fall-back of
    the hook: the code itself when the catalog has no entry. *)
Definition langNameOrCode (code : string) : string :=
  match languageCodes !! code with
  | Some name => name
  | None => code
  end.

Definition withMessage (post : Post) (message : string) : Post :=
  mkPost (post_Id post) (post_UserId post) message (post_UpdateAt post).

(** The hook run before a message is posted: the post to publish and the
    rejection reason.  [translate] is the part of the body below the
    detection block, entered with the source language settled. *)
Definition MessageWillBePosted (p : Plugin) (post : Post) : M (Post * string) :=
  let userID := post_UserId post in
  '(userInfo, _) ← getUserInfo p userID;
  match userInfo with
  | None => ret (post, "")
  | Some userInfo =>
    if negb (Activated userInfo) then ret (post, "") else
    let sourceLang := SourceLanguage userInfo in
    let targetLang := TargetLanguage userInfo in
    let translate (sourceLang : string) : M (Post * string) :=
      if String.eqb sourceLang targetLang then ret (post, "") else
      '(translatedText, err) ← translateText p (post_Message post) sourceLang targetLang;
      match err with
      | Some _ => ret (post, "Failed to translate message")
      | None =>
        if String.eqb translatedText (post_Message post) then ret (post, "") else
        let sourceLangName := langNameOrCode sourceLang in
        let targetLangName := langNameOrCode targetLang in
        ret (withMessage post
               (post_Message post ++ nl ++ nl ++ "(Translated: " ++ sourceLangName
                  ++ " → " ++ targetLangName ++ ")" ++ nl ++ translatedText),
             "")
      end in
    if String.eqb sourceLang autoLanguage then
      '(detectedLang, err) ← detectLanguage p (post_Message post);
      match err with
      | Some _ => ret (post, "Failed to detect language")
      | None => translate detectedLang
      end
    else translate sourceLang
  end.

Definition writeAPIError (err : APIErrorResponse) (w : ResponseWriter) : ResponseWriter :=
  let '(b, _) := Marshal_APIErrorResponse err in
  Write b (WriteHeader (err_StatusCode err) w).

Definition getGo (p : Plugin) (w : ResponseWriter) (r : Request) : M ResponseWriter :=
  let userID := Header_Get r "Mattermost-User-ID" in
  if String.eqb userID "" then
    ret (http_Error "Not authorized to translate post" StatusUnauthorized w)
  else
  let postID := Query_Get r "post_id" in
  let source := Query_Get r "source" in
  let target := Query_Get r "target" in
  '(post, err) ← GetPost p postID;
  match err, post with
  | None, Some post =>
    let translate (source : string) : M ResponseWriter :=
      '(translatedText, err) ← translateText p (post_Message post) source target;
      match err with
      | Some _ => ret (http_Error "Translation failed" StatusBadRequest w)
      | None =>
        let translated :=
          mkTranslatedMessage
            (postID ++ source ++ target ++ json.FormatInt (post_UpdateAt post))
            postID source (post_Message post) target translatedText
            (post_UpdateAt post) in
        let '(resp, _) := Marshal_TranslatedMessage translated in
        ret (Write resp w)
      end in
    if String.eqb source "auto" then
      '(detected, err) ← detectLanguage p (post_Message post);
      match err with
      | Some _ => ret (http_Error "Language detection failed" StatusBadRequest w)
      | None => translate detected
      end
    else translate source
  | _, _ => ret (http_Error "No post to translate" StatusBadRequest w)
  end.

Definition getInfo (p : Plugin) (w : ResponseWriter) (r : Request) : M ResponseWriter :=
  let userID := Header_Get r "Mattermost-User-ID" in
  if String.eqb userID "" then ret w else
  '(info, err) ← getUserInfo p userID;
  match err, info with
  | None, Some info =>
    let '(resp, _) := Marshal_UserInfo info in
    ret (Write resp w)
  | _, _ => ret w
  end.

Definition setInfo (p : Plugin) (w : ResponseWriter) (r : Request) : M ResponseWriter :=
  let userID := Header_Get r "Mattermost-User-ID" in
  if String.eqb userID "" then
    ret (http_Error "Not authorized to set info" StatusUnauthorized w)
  else
  match Decode_UserInfo (req_Body r) with
  | None => ret (http_Error "Invalid parameter: info" StatusBadRequest w)
  | Some info =>
    match IsValid info with
    | Some err => ret (http_Error ("Invalid info: " ++ err) StatusBadRequest w)
    | None =>
      if negb (String.eqb (UserID info) userID) then
        ret (http_Error "Invalid parameter: user mismatch" StatusBadRequest w)
      else
      err ← setUserInfo p info;
      match err with
      | Some _ => ret (http_Error "Failed to set info" StatusBadRequest w)
      | None =>
        let '(resp, _) := Marshal_UserInfo info in
        ret (Write resp w)
      end
    end
  end.

(** The routing below the configuration check. *)
Definition route (p : Plugin) (w : ResponseWriter) (r : Request) : M ResponseWriter :=
  let path := req_Path r in
  if String.eqb path "/api/go" then getGo p w r
  else if String.eqb path "/api/get_info" then getInfo p w r
  else if String.eqb path "/api/set_info" then setInfo p w r
  else ret (http_NotFound w).

Definition ServeHTTP (p : Plugin) (w : ResponseWriter) (r : Request) : M ResponseWriter :=
  let w :=
    match Plugin_IsValid (getConfiguration p) with
    | Some _ => http_Error "This plugin is not configured." StatusNotImplemented w
    | None => w
    end in
  let w := Header_Set "Content-Type" "application/json" w in
  route p w r.

(** ** Notions used by the statements *)

(** The state after the calls [cs] were made and logged. *)
Definition called (s : State) (cs : list Call) : State :=
  mkState (kv s) (calls s ++ cs).

Definition noRecordFound : APIErrorResponse :=
  mkAPIErrorResponse apiErrorNoRecordFound "No record found." StatusBadRequest.

Definition unableToUnmarshal : APIErrorResponse :=
  mkAPIErrorResponse "unable_to_unmarshal" "Unable to unmarshal json." StatusBadRequest.

Definition isDetect (c : Call) : bool :=
  match c with CallDetectDominantLanguage _ => true | _ => false end.

(** What [detectLanguage] answers for a text; it reads nothing of the
    state. *)
Definition detected (p : Plugin) (text : string) : string * option string :=
  fst (detectLanguage p text (mkState ∅ [])).

(** What [translateText] answers. *)
Definition translated (p : Plugin) (text sourceLang targetLang : string)
  : string * option AppError :=
  fst (translateText p text sourceLang targetLang (mkState ∅ [])).

(** The remote calls [cs] are made only with usable credentials. *)
Definition remote (p : Plugin) (cs : list Call) : list Call :=
  match credentials_Get (getConfiguration p) with
  | Some _ => []
  | None => cs
  end.

(** The effective source language of a message: the given one, or the one
    detected when the given one is the sentinel; [None] when detection
    fails. *)
Definition resolved (p : Plugin) (text sourceLang : string) : option string :=
  if String.eqb sourceLang autoLanguage then
    match detected p text with
    | (language, None) => Some language
    | (_, Some _) => None
    end
  else Some sourceLang.

(** The annotated message of the hook. *)
Definition annotated (text sourceLang targetLang translatedText : string) : string :=
  text ++ nl ++ nl ++ "(Translated: " ++ langNameOrCode sourceLang ++ " → "
    ++ langNameOrCode targetLang ++ ")" ++ nl ++ translatedText.

(** The preference the hook finds for a user, if any. *)
Definition preferenceOf (p : Plugin) (s : State) (userID : string) : option UserInfo :=
  fst (fst (getUserInfo p userID s)).

(** A string of well-formed UTF-8, and a preference made of such. *)
Definition wellFormed (s : string) : Prop := utf8.ValidString s = true.

Definition wellFormedInfo (u : UserInfo) : Prop :=
  wellFormed (UserID u) ∧ wellFormed (SourceLanguage u) ∧ wellFormed (TargetLanguage u).

(** A name that needs no escape reads back as itself. *)
Definition plainName (key : string) : Prop :=
  ∀ t, json.unquote (key ++ String dq t) = Some (key, t).

(** Sample data for the scenarios. *)
Definition sampleCatalog : gmap string string :=
  {[ "auto" := "Auto"; "en" := "English"; "fr" := "French" ]}.

Definition sampleUserID : string := "u1abcdefghijklmnopqrstuvwx".

Definition sampleConfiguration : configuration :=
  mkConfiguration "AKIAEXAMPLE" "secret" "us-east-1".

Definition emptyState : State := mkState ∅ [].

Definition samplePreference : UserInfo := mkUserInfo sampleUserID true "en" "fr".

(** Services that never fail on the store and answer nothing remotely. *)
Definition quietServices : Services :=
  mkServices (λ _, None) (λ _ _, None) ∅ (λ _, None) (λ _ _ _, None).

Definition samplePlugin : Plugin := mkPlugin sampleConfiguration quietServices.

(** A plugin without credentials or region. *)
Definition unconfiguredPlugin : Plugin :=
  mkPlugin (mkConfiguration "" "" "") quietServices.

(** [POST /api/set_info] by the sample user, with the sample preference as
    its body. *)
Definition setInfoRequest : Request :=
  mkRequest "/api/set_info" {[ "Mattermost-User-Id" := sampleUserID ]} ∅
    (fst (Marshal_UserInfo samplePreference)).

(** An English post, a detection service that recognises it, and a
    translation service that echoes the text. *)
Definition englishPost : Post := mkPost "post1" sampleUserID "Hello" 1700000000000.

Definition englishServices : Services :=
  mkServices (λ _, None) (λ _ _, None) {[ "post1" := englishPost ]}
    (λ _, Some ["en"]) (λ text _ _, Some text).

Definition englishPlugin : Plugin := mkPlugin sampleConfiguration englishServices.

(** [GET /api/go?post_id=post1&source=auto&target=en]. *)
Definition goRequest : Request :=
  mkRequest "/api/go" {[ "Mattermost-User-Id" := sampleUserID ]}
    {[ "post_id" := ["post1"]; "source" := ["auto"]; "target" := ["en"] ]} "".

(** A store holding the preference [u] of its user. *)
Definition stored (u : UserInfo) : State :=
  mkState {[ UserID u := fst (Marshal_UserInfo u) ]} [].

(** A translation service that answers [Bonjour] for [Hello] from [en] to
    [fr], and a detection service that recognises English. *)
Definition frenchServices : Services :=
  mkServices (λ _, None) (λ _ _, None) ∅ (λ _, Some ["en"])
    (λ text sourceLang targetLang,
       if String.eqb text "Hello" && String.eqb sourceLang "en" && String.eqb targetLang "fr"
       then Some "Bonjour" else None).

Definition frenchPlugin : Plugin := mkPlugin sampleConfiguration frenchServices.

(** A preference that passes validation and whose user identifier ends in
    a byte that is not UTF-8. *)
Definition strayPreference : UserInfo :=
  mkUserInfo ("u1abcdefghijklmnopqrstuvw" ++ String (zbyte 0xFF) "") true "en" "fr".

(** A detection service that recognises Spanish and a translation service
    that answers [Hello] for [Hola] from [es] to [en]. *)
Definition spanishServices : Services :=
  mkServices (λ _, None) (λ _ _, None) ∅ (λ _, Some ["es"; "pt"])
    (λ text sourceLang targetLang,
       if String.eqb text "Hola" && String.eqb sourceLang "es" && String.eqb targetLang "en"
       then Some "Hello" else None).

Definition spanishPlugin : Plugin := mkPlugin sampleConfiguration spanishServices.

Definition spanishPost : Post := mkPost "post2" sampleUserID "Hola" 1700000000001.

(** [POST /api/set_info] by another caller than the user of the body. *)
Definition foreignSetInfoRequest : Request :=
  mkRequest "/api/set_info" {[ "Mattermost-User-Id" := "u2abcdefghijklmnopqrstuvwx" ]} ∅
    (fst (Marshal_UserInfo samplePreference)).

(** ** Further notions *)

(** The calls that change something outside the plugin: a write to the
    store, a published event. *)
Definition isWrite (c : Call) : bool :=
  match c with
  | CallKVSet _ _ | CallPublishWebSocketEvent _ _ _ => true
  | _ => false
  end.

Definition isTranslate (c : Call) : bool :=
  match c with CallTranslateText _ _ _ => true | _ => false end.

(** The payload of the event published for a preference. *)
Definition infoChangePayload (u : UserInfo) : gmap string anyval :=
  <["user_id" := VString (UserID u)]>
   (<["activated" := VBool (Activated u)]>
    (<["source_language" := VString (SourceLanguage u)]>
     (<["target_language" := VString (TargetLanguage u)]> ∅))).

(** A decoded value whose string, if it is one, is well-formed UTF-8. *)
Definition goodValue (v : json.value) : Prop :=
  match v with
  | json.Str x => wellFormed x
  | _ => True
  end.

Definition goodMembers (ms : list (string * json.value)) : Prop :=
  Forall (λ m, goodValue (snd m)) ms.

(** A store that refuses every write. *)
Definition readOnlyServices : Services :=
  mkServices (λ _, None)
    (λ _ _, Some (mkAppError "KVSet" "app.plugin_store.save.app_error" "" StatusInternalServerError))
    ∅ (λ _, None) (λ _ _ _, None).

Definition readOnlyPlugin : Plugin := mkPlugin sampleConfiguration readOnlyServices.

Definition otherUserID : string := "u2abcdefghijklmnopqrstuvwx".

(** [GET /api/get_info] by the sample user. *)
Definition getInfoRequest : Request :=
  mkRequest "/api/get_info" {[ "Mattermost-User-Id" := sampleUserID ]} ∅ "".

(** A request to set a preference whose body is a scalar followed by
    another byte. *)
Definition scalarSetInfoRequest : Request :=
  mkRequest "/api/set_info" {[ "Mattermost-User-Id" := sampleUserID ]} ∅ "truex".

(** The name [user_id] spelled with the long s (U+017F), and the Kelvin
    sign (U+212A). *)
Definition longSUserID : string :=
  String "u" (String (zbyte 0xC5) (String (zbyte 0xBF) "er_id")).

Definition kelvinSign : string :=
  String (zbyte 0xE2) (String (zbyte 0x84) (String (zbyte 0xAA) "")).

(** [n] copies of a string. *)
Fixpoint copies (n : nat) (s : string) : string :=
  match n with
  | O => ""
  | S n' => s ++ copies n' s
  end.

(** A request for a path the plugin does not serve. *)
Definition strangeRequest : Request :=
  mkRequest "/api/unknown" {[ "Mattermost-User-Id" := sampleUserID ]} ∅ "".

(** A plugin that can fetch the English post and whose remote services
    fail. *)
Definition muteServices : Services :=
  mkServices (λ _, None) (λ _ _, None) {[ "post1" := englishPost ]}
    (λ _, None) (λ _ _ _, None).

Definition mutePlugin : Plugin := mkPlugin sampleConfiguration muteServices.

(** [GET /api/go?post_id=post1&source=en&target=fr]. *)
Definition goFrenchRequest : Request :=
  mkRequest "/api/go" {[ "Mattermost-User-Id" := sampleUserID ]}
    {[ "post_id" := ["post1"]; "source" := ["en"]; "target" := ["fr"] ]} "".

(** * Properties *)

(** ** Bytes and bit fields *)

Lemma byteZ_range c : 0 ≤ byteZ c < 256.
Proof.
  unfold byteZ. pose proof (N_ascii_bounded c). lia.
Qed.

Lemma zbyte_byteZ c : zbyte (byteZ c) = c.
Proof. unfold zbyte, byteZ. rewrite N2Z.id. apply ascii_N_embedding. Qed.

Lemma zbyte_eq z c : byteZ c = z → zbyte z = c.
Proof. intros <-. apply zbyte_byteZ. Qed.

(** A field below [2^k] or-ed under a value shifted by [k] adds up. *)
Lemma lor_shifted a b k :
  0 ≤ k → 0 ≤ b < 2 ^ k → Z.lor (a * 2 ^ k) b = a * 2 ^ k + b.
Proof.
  intros Hk Hb.
  assert (Z.land (a * 2 ^ k) b = 0) as H0.
  { rewrite <- (Z.mod_small b (2 ^ k)) by lia.
    rewrite <- Z.land_ones by lia.
    rewrite (Z.land_comm b), Z.land_assoc, Z.land_ones by lia.
    rewrite Z.mod_mul by lia. apply Z.land_0_l. }
  pose proof (Z.add_lor_land (a * 2 ^ k) b). lia.
Qed.

Lemma lor_fields2 a b :
  0 ≤ b < 64 → Z.lor (Z.shiftl a 6) b = a * 64 + b.
Proof.
  intros. rewrite Z.shiftl_mul_pow2 by lia. by apply (lor_shifted a b 6).
Qed.

Lemma lor_fields3 a b c :
  0 ≤ b < 64 → 0 ≤ c < 64 →
  Z.lor (Z.lor (Z.shiftl a 12) (Z.shiftl b 6)) c = a * 4096 + b * 64 + c.
Proof.
  intros. change 12 with (6 + 6). rewrite <- Z.shiftl_shiftl by lia.
  rewrite <- Z.shiftl_lor, lor_fields2, lor_fields2 by lia. lia.
Qed.

Lemma lor_fields4 a b c d :
  0 ≤ b < 64 → 0 ≤ c < 64 → 0 ≤ d < 64 →
  Z.lor (Z.lor (Z.lor (Z.shiftl a 18) (Z.shiftl b 12)) (Z.shiftl c 6)) d
  = a * 262144 + b * 4096 + c * 64 + d.
Proof.
  intros.
  replace (Z.shiftl a 18) with (Z.shiftl (Z.shiftl a 12) 6)
    by (rewrite Z.shiftl_shiftl by lia; reflexivity).
  replace (Z.shiftl b 12) with (Z.shiftl (Z.shiftl b 6) 6)
    by (rewrite Z.shiftl_shiftl by lia; reflexivity).
  rewrite <- !Z.shiftl_lor. rewrite lor_fields3, lor_fields2 by lia. lia.
Qed.

Lemma land_mask a n : 0 ≤ n → Z.land a (2 ^ n - 1) = a mod 2 ^ n.
Proof.
  intros. rewrite <- Z.land_ones by lia. f_equal.
  rewrite Z.ones_equiv. lia.
Qed.

Lemma lor_tag tag k x :
  0 ≤ k → 0 ≤ x < 2 ^ k → Z.lor (tag * 2 ^ k) x = tag * 2 ^ k + x.
Proof. apply lor_shifted. Qed.

(** ** UTF-8 *)

Ltac bool_to_Z :=
  repeat match goal with
         | H : (_ <? _) = true |- _ => apply Z.ltb_lt in H
         | H : (_ <? _) = false |- _ => apply Z.ltb_ge in H
         | H : (_ <=? _) = true |- _ => apply Z.leb_le in H
         | H : (_ <=? _) = false |- _ => apply Z.leb_gt in H
         | H : (_ =? _) = true |- _ => apply Z.eqb_eq in H
         | H : (_ =? _) = false |- _ => apply Z.eqb_neq in H
         | H : _ && _ = true |- _ => apply andb_true_iff in H; destruct H
         | H : _ || _ = false |- _ => apply orb_false_iff in H; destruct H
         | H : negb _ = false |- _ => apply negb_false_iff in H
         | H : negb _ = true |- _ => apply negb_true_iff in H
         end.

Lemma DecodeRune_shape s r size :
  utf8.DecodeRuneInString s = (r, size) →
  size ≠ 0%nat → size ≠ 1%nat →
  (∃ c0 c1 t, s = String c0 (String c1 t) ∧ size = 2%nat
     ∧ 0xC2 ≤ byteZ c0 ≤ 0xDF ∧ 0x80 ≤ byteZ c1 ≤ 0xBF
     ∧ r = (byteZ c0 - 0xC0) * 64 + (byteZ c1 - 0x80))
  ∨ (∃ c0 c1 c2 t, s = String c0 (String c1 (String c2 t)) ∧ size = 3%nat
     ∧ 0xE0 ≤ byteZ c0 ≤ 0xEF ∧ 0x80 ≤ byteZ c1 ≤ 0xBF ∧ 0x80 ≤ byteZ c2 ≤ 0xBF
     ∧ (byteZ c0 = 0xE0 → 0xA0 ≤ byteZ c1) ∧ (byteZ c0 = 0xED → byteZ c1 ≤ 0x9F)
     ∧ r = (byteZ c0 - 0xE0) * 4096 + (byteZ c1 - 0x80) * 64 + (byteZ c2 - 0x80))
  ∨ (∃ c0 c1 c2 c3 t, s = String c0 (String c1 (String c2 (String c3 t))) ∧ size = 4%nat
     ∧ 0xF0 ≤ byteZ c0 ≤ 0xF4 ∧ 0x80 ≤ byteZ c1 ≤ 0xBF ∧ 0x80 ≤ byteZ c2 ≤ 0xBF
     ∧ 0x80 ≤ byteZ c3 ≤ 0xBF
     ∧ (byteZ c0 = 0xF0 → 0x90 ≤ byteZ c1) ∧ (byteZ c0 = 0xF4 → byteZ c1 ≤ 0x8F)
     ∧ r = (byteZ c0 - 0xF0) * 262144 + (byteZ c1 - 0x80) * 4096
           + (byteZ c2 - 0x80) * 64 + (byteZ c3 - 0x80)).
Proof.
  intros H H0 H1.
  unfold utf8.DecodeRuneInString, utf8.first, utf8.cont, utf8.RuneSelf,
    utf8.locb, utf8.hicb in H.
  repeat case_match; simplify_eq; bool_to_Z.
  all: repeat match goal with c : ascii |- _ =>
         pose proof (byteZ_range c); revert c end; intros.
  all: change 31 with (2 ^ 5 - 1); change 63 with (2 ^ 6 - 1);
       change 15 with (2 ^ 4 - 1); change 7 with (2 ^ 3 - 1);
       rewrite !land_mask by lia;
       rewrite ?lor_fields4, ?lor_fields3, ?lor_fields2 by (apply Z.mod_pos_bound; lia).
  1: left; eexists _, _, _.
  2-5: right; left; eexists _, _, _, _.
  6-8: right; right; eexists _, _, _, _, _.
  all: split_and!; try reflexivity; try lia.
  all: Z.div_mod_to_equations; lia.
Qed.

Ltac decode_fields :=
  change 31 with (2 ^ 5 - 1); change 63 with (2 ^ 6 - 1);
  change 15 with (2 ^ 4 - 1); change 7 with (2 ^ 3 - 1);
  rewrite !land_mask by lia;
  rewrite ?lor_fields4, ?lor_fields3, ?lor_fields2 by (apply Z.mod_pos_bound; lia).

Lemma DecodeRune_2 c0 c1 t :
  0xC2 ≤ byteZ c0 ≤ 0xDF → 0x80 ≤ byteZ c1 ≤ 0xBF →
  utf8.DecodeRuneInString (String c0 (String c1 t))
  = ((byteZ c0 - 0xC0) * 64 + (byteZ c1 - 0x80), 2%nat).
Proof.
  intros H0 H1.
  unfold utf8.DecodeRuneInString, utf8.first, utf8.cont, utf8.RuneSelf,
    utf8.locb, utf8.hicb.
  repeat case_match; simplify_eq; bool_to_Z; try lia.
  all: try (simpl in *; lia).
  all: try match goal with H : _ ∨ _ |- _ => destruct H; bool_to_Z; lia end.
  decode_fields. f_equal. Z.div_mod_to_equations; lia.
Qed.

Ltac decode_known :=
  unfold utf8.DecodeRuneInString, utf8.first, utf8.cont, utf8.RuneSelf,
    utf8.locb, utf8.hicb;
  repeat case_match; simplify_eq; bool_to_Z; try lia;
  try (simpl in *; lia);
  try (decode_fields; f_equal; Z.div_mod_to_equations; lia).

Lemma DecodeRune_3 c0 c1 c2 t :
  0xE0 ≤ byteZ c0 ≤ 0xEF → 0x80 ≤ byteZ c1 ≤ 0xBF → 0x80 ≤ byteZ c2 ≤ 0xBF →
  (byteZ c0 = 0xE0 → 0xA0 ≤ byteZ c1) → (byteZ c0 = 0xED → byteZ c1 ≤ 0x9F) →
  utf8.DecodeRuneInString (String c0 (String c1 (String c2 t)))
  = ((byteZ c0 - 0xE0) * 4096 + (byteZ c1 - 0x80) * 64 + (byteZ c2 - 0x80), 3%nat).
Proof. intros H0 H1 H2 Hlo Hhi. decode_known. Qed.

Lemma DecodeRune_4 c0 c1 c2 c3 t :
  0xF0 ≤ byteZ c0 ≤ 0xF4 → 0x80 ≤ byteZ c1 ≤ 0xBF → 0x80 ≤ byteZ c2 ≤ 0xBF →
  0x80 ≤ byteZ c3 ≤ 0xBF →
  (byteZ c0 = 0xF0 → 0x90 ≤ byteZ c1) → (byteZ c0 = 0xF4 → byteZ c1 ≤ 0x8F) →
  utf8.DecodeRuneInString (String c0 (String c1 (String c2 (String c3 t))))
  = ((byteZ c0 - 0xF0) * 262144 + (byteZ c1 - 0x80) * 4096
     + (byteZ c2 - 0x80) * 64 + (byteZ c3 - 0x80), 4%nat).
Proof. intros H0 H1 H2 H3 Hlo Hhi. decode_known. Qed.

Ltac encode_known :=
  unfold utf8.EncodeRune, utf8.MaxRune, utf8.RuneError, utf8.byte;
  repeat case_match; bool_to_Z; try lia;
  repeat match goal with H : _ || _ = true |- _ =>
     apply orb_true_iff in H; destruct H; bool_to_Z; try lia end;
  rewrite ?Z.shiftr_div_pow2 by lia;
  change 63 with (2 ^ 6 - 1); rewrite ?land_mask by lia;
  change 0xC0 with (3 * 2 ^ 6); change 0x80 with (2 * 2 ^ 6);
  change 0xE0 with (14 * 2 ^ 4); change 0xF0 with (30 * 2 ^ 3);
  rewrite ?lor_tag by (try lia; Z.div_mod_to_equations; lia);
  repeat f_equal; apply zbyte_eq; Z.div_mod_to_equations; lia.

Lemma EncodeRune_2 c0 c1 :
  0xC2 ≤ byteZ c0 ≤ 0xDF → 0x80 ≤ byteZ c1 ≤ 0xBF →
  utf8.EncodeRune ((byteZ c0 - 0xC0) * 64 + (byteZ c1 - 0x80))
  = String c0 (String c1 "").
Proof. intros H0 H1. encode_known. Qed.

Lemma EncodeRune_3 c0 c1 c2 :
  0xE0 ≤ byteZ c0 ≤ 0xEF → 0x80 ≤ byteZ c1 ≤ 0xBF → 0x80 ≤ byteZ c2 ≤ 0xBF →
  (byteZ c0 = 0xE0 → 0xA0 ≤ byteZ c1) → (byteZ c0 = 0xED → byteZ c1 ≤ 0x9F) →
  utf8.EncodeRune ((byteZ c0 - 0xE0) * 4096 + (byteZ c1 - 0x80) * 64 + (byteZ c2 - 0x80))
  = String c0 (String c1 (String c2 "")).
Proof. intros H0 H1 H2 Hlo Hhi. encode_known. Qed.

Lemma EncodeRune_4 c0 c1 c2 c3 :
  0xF0 ≤ byteZ c0 ≤ 0xF4 → 0x80 ≤ byteZ c1 ≤ 0xBF → 0x80 ≤ byteZ c2 ≤ 0xBF →
  0x80 ≤ byteZ c3 ≤ 0xBF →
  (byteZ c0 = 0xF0 → 0x90 ≤ byteZ c1) → (byteZ c0 = 0xF4 → byteZ c1 ≤ 0x8F) →
  utf8.EncodeRune ((byteZ c0 - 0xF0) * 262144 + (byteZ c1 - 0x80) * 4096
                   + (byteZ c2 - 0x80) * 64 + (byteZ c3 - 0x80))
  = String c0 (String c1 (String c2 (String c3 ""))).
Proof. intros H0 H1 H2 H3 Hlo Hhi. encode_known. Qed.

Lemma DecodeRune_size_pos c t r size :
  utf8.DecodeRuneInString (String c t) = (r, size) → size ≠ 0%nat.
Proof.
  unfold utf8.DecodeRuneInString. intros H.
  repeat case_match; simplify_eq; done.
Qed.

(** ** JSON strings: decoding what was encoded *)

Lemma append_assoc (a b c : string) : (a ++ b) ++ c = a ++ (b ++ c).
Proof. induction a as [|x a IH]; simpl; [done|]. by rewrite IH. Qed.

Lemma length_append (a b : string) :
  String.length (a ++ b) = (String.length a + String.length b)%nat.
Proof. induction a as [|x a IH]; simpl; [done|]. by rewrite IH. Qed.

(** A byte written as it is reads back as itself. *)
Lemma unquote_step_safe c t :
  json.htmlSafeSet (byteZ c) = true →
  json.unquote_step (String c t) = Some (String c "", t) ∧ byteZ c ≠ 0x22.
Proof.
  unfold json.htmlSafeSet, json.unquote_step, utf8.RuneSelf. intros H.
  bool_to_Z.
  repeat case_match; bool_to_Z; try lia; try done.
Qed.

(** An escaped ASCII byte reads back as itself. *)
Lemma unquote_step_escape c t :
  byteZ c < 0x80 → json.htmlSafeSet (byteZ c) = false →
  json.unquote_step (json.escapeByte c ++ t) = Some (String c "", t)
  ∧ ∃ e, json.escapeByte c = String bslash e.
Proof.
  intros H1 H2.
  destruct c as [[] [] [] [] [] [] [] []];
    vm_compute in H1; try discriminate H1;
    vm_compute in H2; try discriminate H2;
    (split; [reflexivity|eexists; reflexivity]).
Qed.

Lemma unquote_step_high c t :
  0x80 ≤ byteZ c →
  json.unquote_step (String c t)
  = let '(rr, size) := utf8.DecodeRuneInString (String c t) in
    Some (utf8.EncodeRune rr, str_drop size (String c t)).
Proof.
  intros H. unfold json.unquote_step, utf8.RuneSelf.
  destruct (Z.eqb_spec (byteZ c) 0x5C); [lia|].
  destruct (Z.ltb_spec (byteZ c) 0x20); [lia|].
  destruct (Z.ltb_spec (byteZ c) 0x80); [lia|]. done.
Qed.

Lemma string_loop_S fe c rest :
  json.string_loop (S fe) (String c rest)
  = let b := byteZ c in
    if b <? utf8.RuneSelf then
      (if json.htmlSafeSet b then String c "" else json.escapeByte c)
        ++ json.string_loop fe rest
    else
      let '(r, size) := utf8.DecodeRuneInString (str_take 4 (String c rest)) in
      if (r =? utf8.RuneError) && (size =? 1)%nat then
        String bslash "ufffd" ++ json.string_loop fe rest
      else if (r =? 0x2028) || (r =? 0x2029) then
        String bslash "u202" ++ String (json.hexChar (Z.land r 0xF)) ""
          ++ json.string_loop fe (str_drop size (String c rest))
      else
        str_take size (String c rest)
          ++ json.string_loop fe (str_drop size (String c rest)).
Proof. reflexivity. Qed.

(** The line and paragraph separators are the only runes written as an
    escape. *)
Lemma unquote_step_separator r t :
  r = 0x2028 ∨ r = 0x2029 →
  json.unquote_step
    ((String bslash "u202" ++ String (json.hexChar (Z.land r 0xF)) "") ++ t)
  = Some (utf8.EncodeRune r, t).
Proof. intros [-> | ->]; reflexivity. Qed.

(** One round of the encoder, read back by one round of the decoder. *)
Lemma string_round fe fv c rest :
  utf8.ValidString_loop (S fv) (String c rest) = true →
  ∃ out bytes s',
    json.string_loop (S fe) (String c rest) = out ++ json.string_loop fe s'
    ∧ utf8.ValidString_loop fv s' = true
    ∧ String c rest = bytes ++ s'
    ∧ (String.length s' < String.length (String c rest))%nat
    ∧ (∀ t, json.unquote_step (out ++ t) = Some (bytes, t))
    ∧ (∃ h e, out = String h e ∧ byteZ h ≠ 0x22).
Proof.
  intros Hv. rewrite string_loop_S. cbn zeta.
  cbn [utf8.ValidString_loop] in Hv. unfold utf8.RuneSelf in *.
  destruct (Z.ltb_spec (byteZ c) 0x80) as [Hlt|Hge].
  - (* an ASCII byte *)
    destruct (json.htmlSafeSet (byteZ c)) eqn:Hs.
    + destruct (unquote_step_safe c "" Hs) as [_ Hq].
      exists (String c ""), (String c ""), rest. split_and!; try done.
      * simpl. lia.
      * intros t. by destruct (unquote_step_safe c t Hs).
      * by exists c, "".
    + destruct (unquote_step_escape c "" Hlt Hs) as [_ [e He]].
      exists (json.escapeByte c), (String c ""), rest. split_and!; try done.
      * simpl. lia.
      * intros t. by destruct (unquote_step_escape c t Hlt Hs).
      * exists bslash, e. split; [done|]. by vm_compute.
  - (* the head of a longer sequence *)
    destruct (utf8.DecodeRuneInString (String c rest)) as [r size] eqn:Hd.
    destruct (Nat.eqb_spec size 1) as [|Hn1]; [done|].
    pose proof (DecodeRune_size_pos _ _ _ _ Hd) as Hn0.
    destruct (DecodeRune_shape _ _ _ Hd Hn0 Hn1)
      as [(c0 & c1 & t' & [= <- ->] & -> & H0 & H1 & ->)
         |[(c0 & c1 & c2 & t' & [= <- ->] & -> & H0 & H1 & H2 & Hlo & Hhi & ->)
          |(c0 & c1 & c2 & c3 & t' & [= <- ->] & -> & H0 & H1 & H2 & H3 & Hlo & Hhi & ->)]].
    + (* two bytes *)
      cbn [str_take str_drop] in *. rewrite DecodeRune_2 by done.
      destruct (Z.eqb_spec ((byteZ c - 192) * 64 + (byteZ c1 - 128)) utf8.RuneError);
        [unfold utf8.RuneError in *; lia|].
      destruct (Z.eqb_spec ((byteZ c - 192) * 64 + (byteZ c1 - 128)) 0x2028); [lia|].
      destruct (Z.eqb_spec ((byteZ c - 192) * 64 + (byteZ c1 - 128)) 0x2029); [lia|].
      cbn [andb orb].
      exists (String c (String c1 "")), (String c (String c1 "")), t'.
      split_and!; try done.
      * simpl. lia.
      * intros t. cbn [append]. rewrite unquote_step_high by lia.
        rewrite DecodeRune_2 by done. by rewrite EncodeRune_2.
      * exists c, (String c1 ""). split; [done|lia].
    + (* three bytes *)
      cbn [str_take str_drop] in *. rewrite DecodeRune_3 by done.
      set (r := (byteZ c - 224) * 4096 + (byteZ c1 - 128) * 64 + (byteZ c2 - 128)) in *.
      replace ((r =? utf8.RuneError) && (3 =? 1)%nat) with false
        by (symmetry; apply andb_false_r).
      destruct ((r =? 0x2028) || (r =? 0x2029)) eqn:Hsep.
      * apply orb_true_iff in Hsep.
        assert (r = 0x2028 ∨ r = 0x2029) as Hr by (destruct Hsep; bool_to_Z; auto).
        exists (String bslash "u202" ++ String (json.hexChar (Z.land r 0xF)) ""),
               (String c (String c1 (String c2 ""))), t'.
        split_and!;
          [ try done; by rewrite append_assoc | done | done | simpl; lia | | ].
        -- intros t. rewrite unquote_step_separator by done.
           unfold r. by rewrite EncodeRune_3.
        -- exists bslash. eexists. split; [reflexivity|]. by vm_compute.
      * exists (String c (String c1 (String c2 ""))),
               (String c (String c1 (String c2 ""))), t'.
        split_and!; try done.
        -- simpl. lia.
        -- intros t. cbn [append]. rewrite unquote_step_high by lia.
           rewrite DecodeRune_3 by done. by rewrite EncodeRune_3.
        -- exists c, (String c1 (String c2 "")). split; [done|lia].
    + (* four bytes *)
      cbn [str_take str_drop] in *. rewrite DecodeRune_4 by done.
      set (r := (byteZ c - 240) * 262144 + (byteZ c1 - 128) * 4096
                + (byteZ c2 - 128) * 64 + (byteZ c3 - 128)) in *.
      replace ((r =? utf8.RuneError) && (4 =? 1)%nat) with false
        by (symmetry; apply andb_false_r).
      destruct (Z.eqb_spec r 0x2028); [unfold r in *; lia|].
      destruct (Z.eqb_spec r 0x2029); [unfold r in *; lia|].
      cbn [orb].
      exists (String c (String c1 (String c2 (String c3 "")))),
             (String c (String c1 (String c2 (String c3 "")))), t'.
      split_and!; try done.
      * simpl. lia.
      * intros t. cbn [append]. rewrite unquote_step_high by lia.
        rewrite DecodeRune_4 by done. by rewrite EncodeRune_4.
      * exists c, (String c1 (String c2 (String c3 ""))). split; [done|lia].
Qed.

(** The decoder reads back a string of well-formed UTF-8 from its
    encoding, whatever follows the closing quote. *)
Lemma unquote_string_loop n :
  ∀ s fe fv fd t,
    (String.length s ≤ n)%nat → (String.length s ≤ fe)%nat →
    utf8.ValidString_loop fv s = true →
    (String.length (json.string_loop fe s) < fd)%nat →
    json.unquote_loop fd (json.string_loop fe s ++ String dq t) = Some (s, t).
Proof.
  induction n as [|n IH]; intros [|c rest] fe fv fd t Hn Hfe Hv Hfd;
    try (simpl in Hn; lia).
  - destruct fe, fd; simpl in *; try lia; reflexivity.
  - destruct fe, fd; simpl in *; try lia; reflexivity.
  - destruct fe as [|fe]; [simpl in Hfe; lia|].
    destruct fv as [|fv]; [discriminate Hv|].
    destruct (string_round fe fv c rest Hv)
      as (out & bytes & s' & Henc & Hv' & Hs & Hlen & Hstep & h & e & -> & Hh).
    rewrite Henc in *. rewrite append_assoc.
    rewrite length_append in Hfd.
    destruct fd as [|fd]; [lia|].
    cbn [append json.unquote_loop].
    destruct (Z.eqb_spec (byteZ h) 0x22) as [|_]; [done|].
    change (String h (e ++ json.string_loop fe s' ++ String dq t))
      with (String h e ++ (json.string_loop fe s' ++ String dq t)).
    rewrite Hstep.
    rewrite (IH s' fe fv fd t); try done.
    + by rewrite Hs.
    + simpl in *. lia.
    + simpl in *. lia.
    + simpl in Hfd. lia.
Qed.

Lemma unquote_encoded s t :
  wellFormed s →
  json.unquote (json.string_loop (String.length s) s ++ String dq t) = Some (s, t).
Proof.
  intros H. unfold json.unquote.
  apply (unquote_string_loop (String.length s) s _ (String.length s)); try done.
  rewrite length_append. simpl. lia.
Qed.

Lemma encodeString_append s t :
  json.encodeString s ++ t
  = String dq (json.string_loop (String.length s) s ++ String dq t).
Proof. unfold json.encodeString. cbn [append]. by rewrite append_assoc. Qed.

(** A string value. *)
Lemma parseValue_string fuel d s t :
  wellFormed s →
  json.parseValue (S fuel) d (json.encodeString s ++ t) = Some (json.Str s, t).
Proof.
  intros H. rewrite encodeString_append.
  change (json.parseValue (S fuel) d (String dq ?x))
    with (match json.unquote x with
          | Some (str, r) => Some (json.Str str, r)
          | None => None
          end).
  by rewrite unquote_encoded.
Qed.

(** One member with a string value, followed by a comma or by the closing
    brace. *)
Lemma parseMembers_string fuel d key v t acc :
  plainName key → wellFormed v →
  json.parseMembers (S (S fuel)) d (json.member key (json.encodeString v) ++ String "," t) acc
  = json.parseMembers (S fuel) d t (acc ++ [(key, json.Str v)])
  ∧ json.parseMembers (S (S fuel)) d (json.member key (json.encodeString v) ++ String "}" t) acc
    = Some (json.Object (acc ++ [(key, json.Str v)]), t).
Proof.
  intros Hk Hv. unfold json.member.
  assert (∀ rest,
    json.parseMembers (S (S fuel)) d
      (String dq (key ++ String dq (":" ++ json.encodeString v)) ++ rest) acc
    = match json.skipSpace rest with
      | "" => None
      | String c4 r4 =>
        if byteZ c4 =? 0x2C
        then json.parseMembers (S fuel) d r4 (acc ++ [(key, json.Str v)])
        else if byteZ c4 =? 0x7D
             then Some (json.Object (acc ++ [(key, json.Str v)]), r4)
             else None
      end) as H.
  { intros rest. cbn [append]. rewrite append_assoc. cbn [append].
    change (json.parseMembers (S (S fuel)) d
              (String dq (key ++ String dq (String ":" ?x))) acc)
      with (match json.unquote (key ++ String dq (String ":" x)) with
            | None => None
            | Some (key0, r1) =>
              match json.skipSpace r1 with
              | "" => None
              | String c2 r2 =>
                if negb (byteZ c2 =? 0x3A) then None else
                match json.parseValue (S fuel) d r2 with
                | None => None
                | Some (v0, r3) =>
                  match json.skipSpace r3 with
                  | "" => None
                  | String c4 r4 =>
                    if byteZ c4 =? 0x2C
                    then json.parseMembers (S fuel) d r4 (acc ++ [(key0, v0)])
                    else if byteZ c4 =? 0x7D
                         then Some (json.Object (acc ++ [(key0, v0)]), r4)
                         else None
                  end
                end
              end
            end).
    rewrite Hk.
    change (json.skipSpace (String ":" ?x)) with (String ":" x).
    change (negb (byteZ ":" =? 0x3A)) with false. cbv iota.
    by rewrite parseValue_string. }
  split; rewrite H; reflexivity.
Qed.

(** The member of the boolean field, followed by a comma. *)
Lemma parseMembers_bool fuel d key b t acc :
  plainName key →
  json.parseMembers (S (S fuel)) d (json.member key (json.encodeBool b) ++ String "," t) acc
  = json.parseMembers (S fuel) d t (acc ++ [(key, json.Bool b)]).
Proof.
  intros Hk. unfold json.member. cbn [append]. rewrite append_assoc. cbn [append].
  change (json.parseMembers (S (S fuel)) d
            (String dq (key ++ String dq (String ":" ?x))) acc)
    with (match json.unquote (key ++ String dq (String ":" x)) with
          | None => None
          | Some (key0, r1) =>
            match json.skipSpace r1 with
            | "" => None
            | String c2 r2 =>
              if negb (byteZ c2 =? 0x3A) then None else
              match json.parseValue (S fuel) d r2 with
              | None => None
              | Some (v0, r3) =>
                match json.skipSpace r3 with
                | "" => None
                | String c4 r4 =>
                  if byteZ c4 =? 0x2C
                  then json.parseMembers (S fuel) d r4 (acc ++ [(key0, v0)])
                  else if byteZ c4 =? 0x7D
                       then Some (json.Object (acc ++ [(key0, v0)]), r4)
                       else None
                end
              end
            end
          end).
  rewrite Hk. by destruct b.
Qed.

Lemma plainName_user_id : plainName "user_id".
Proof. intros t. reflexivity. Qed.

Lemma plainName_activated : plainName "activated".
Proof. intros t. reflexivity. Qed.

Lemma plainName_source_language : plainName "source_language".
Proof. intros t. reflexivity. Qed.

Lemma plainName_target_language : plainName "target_language".
Proof. intros t. reflexivity. Qed.

(** The encoding of a preference parses to the object of its four
    members. *)
Lemma parse_Marshal_UserInfo u :
  wellFormedInfo u →
  json.parse (fst (Marshal_UserInfo u))
  = Some (json.Object
            [("user_id", json.Str (UserID u));
             ("activated", json.Bool (Activated u));
             ("source_language", json.Str (SourceLanguage u));
             ("target_language", json.Str (TargetLanguage u))], "").
Proof.
  intros (Hu & Hs & Ht). unfold json.parse, Marshal_UserInfo. cbn [fst].
  cbn [append String.length].
  set (f := String.length _).
  change (json.parseValue (S (S f)) 0 (String "{" ?x))
    with (json.parseMembers (S f) (0 + 1) x []).
  assert (∃ f', f = S (S (S (S f')))) as [f' ->].
  { unfold f, json.member. cbn [append String.length].
    rewrite !length_append. cbn [String.length]. rewrite !length_append.
    cbn [String.length]. eexists.
    rewrite <- !Nat.add_succ_comm. cbn [Nat.add]. reflexivity. }
  rewrite (proj1 (parseMembers_string _ _ _ _ _ _ plainName_user_id Hu)).
  rewrite (parseMembers_bool _ _ _ _ _ _ plainName_activated).
  rewrite (proj1 (parseMembers_string _ _ _ _ _ _ plainName_source_language Hs)).
  rewrite (proj2 (parseMembers_string _ _ _ _ _ _ plainName_target_language Ht)).
  reflexivity.
Qed.

(** Decoding what [json.Marshal] wrote gives the preference back. *)
Lemma Unmarshal_Marshal_UserInfo u :
  wellFormedInfo u →
  Unmarshal_UserInfo (fst (Marshal_UserInfo u)) = Some u.
Proof.
  intros H. unfold Unmarshal_UserInfo, json.Unmarshal_value.
  rewrite parse_Marshal_UserInfo by done.
  destruct u. reflexivity.
Qed.

(** ** Running the monad *)

Lemma called_nil s : called s [] = s.
Proof. destruct s. unfold called. simpl. by rewrite app_nil_r. Qed.

Lemma called_called s cs cs' : called (called s cs) cs' = called s (cs ++ cs').
Proof. unfold called. simpl. by rewrite <- app_assoc. Qed.

Lemma bind_run' {A B : Type} (m : M A) (k : A → M B) (s : State) :
  (m ≫= k) s = k (m s).1 (m s).2.
Proof. unfold mbind, M_bind. by destruct (m s). Qed.

Ltac run :=
  unfold ret; cbv beta delta [mbind M_bind mret M_ret call] iota; simpl.

(** ** The preference store *)

(** What [getUserInfo] returns, as a function of the store. *)
Lemma getUserInfo_run p userID s :
  getUserInfo p userID s =
    (match KVGet_error (services p) userID, kv s !! userID with
     | None, Some b =>
       match Unmarshal_UserInfo b with
       | Some u => (Some u, None)
       | None => (None, Some unableToUnmarshal)
       end
     | _, _ => (None, Some noRecordFound)
     end, called s [CallKVGet userID]).
Proof.
  unfold getUserInfo, KVGet. run.
  destruct (KVGet_error _ _); [done|].
  destruct (kv s !! userID) as [b|]; [|done].
  by destruct (Unmarshal_UserInfo b).
Qed.

Lemma IsValid_equal_languages u :
  SourceLanguage u = TargetLanguage u → ∃ msg, IsValid u = Some msg.
Proof.
  intros E. unfold IsValid.
  repeat (match goal with |- context [if ?b then _ else _] => destruct b eqn:? end; eauto).
  rewrite E, String.eqb_refl in *. discriminate.
Qed.

Lemma IsValid_auto_target u :
  TargetLanguage u = autoLanguage → ∃ msg, IsValid u = Some msg.
Proof.
  intros E. unfold IsValid.
  repeat (match goal with |- context [if ?b then _ else _] => destruct b eqn:? end; eauto).
  rewrite E, String.eqb_refl in *. discriminate.
Qed.

Lemma setUserInfo_invalid p u s msg :
  IsValid u = Some msg →
  setUserInfo p u s = (Some (mkAPIErrorResponse "invalid_user_info" msg 400), s).
Proof. intros E. unfold setUserInfo. by rewrite E. Qed.

(** C5. A preference whose source and target languages are equal, or whose
    target language is [auto], is refused by [setUserInfo] with the
    validation error [invalid_user_info]; the state is left as it was, so
    nothing is stored and no call is made: no write, no notification. *)
Theorem setUserInfo_refuses_equal_or_auto_target p u s :
  SourceLanguage u = TargetLanguage u ∨ TargetLanguage u = autoLanguage →
  ∃ msg,
    IsValid u = Some msg
    ∧ setUserInfo p u s
      = (Some (mkAPIErrorResponse "invalid_user_info" msg StatusBadRequest), s).
Proof.
  intros [E|E].
  - destruct (IsValid_equal_languages u E) as [msg Hm].
    exists msg. split; [done|]. by apply setUserInfo_invalid.
  - destruct (IsValid_auto_target u E) as [msg Hm].
    exists msg. split; [done|]. by apply setUserInfo_invalid.
Qed.

(** C10. [getUserInfo] answers [no_record_found] exactly when the store
    read fails or nothing is stored under the user, and
    [unable_to_unmarshal] exactly when the read succeeded and returned
    bytes that do not decode; it has no other error. *)
Theorem getUserInfo_errors p userID s :
  (fst (getUserInfo p userID s) = (None, Some noRecordFound) ↔
   KVGet_error (services p) userID ≠ None ∨ kv s !! userID = None)
  ∧ (fst (getUserInfo p userID s) = (None, Some unableToUnmarshal) ↔
     KVGet_error (services p) userID = None
     ∧ ∃ b, kv s !! userID = Some b ∧ Unmarshal_UserInfo b = None)
  ∧ (∀ e, snd (fst (getUserInfo p userID s)) = Some e →
          e = noRecordFound ∨ e = unableToUnmarshal)
  ∧ err_ID noRecordFound = "no_record_found"
  ∧ err_ID unableToUnmarshal = "unable_to_unmarshal".
Proof.
  rewrite getUserInfo_run. cbn [fst snd].
  destruct (KVGet_error (services p) userID) as [e0|] eqn:He.
  { split_and!; try done.
    - split; [auto|done].
    - split; [done|]. by intros [? _].
    - intros e [= <-]. by left. }
  destruct (kv s !! userID) as [b|] eqn:Hb.
  2:{ split_and!; try done.
      - split; [auto|done].
      - split; [done|]. by intros [_ (? & ? & _)].
      - intros e [= <-]. by left. }
  destruct (Unmarshal_UserInfo b) as [u|] eqn:Hu.
  - split_and!; try done.
    + split; [done|]. intros [|]; done.
    + split; [done|]. intros [_ (b' & [= <-] & Hb')]. congruence.
  - split_and!; try done.
    + split; [done|]. intros [|]; done.
    + split; [|done]. intros _. split; [done|]. by exists b.
    + intros e [= <-]. by right.
Qed.


(** ** The remote services *)

Lemma detectLanguage_run p text s :
  detectLanguage p text s
  = (detected p text, called s (remote p [CallDetectDominantLanguage text])).
Proof.
  unfold detected, detectLanguage, remote.
  destruct (credentials_Get _); run.
  - by rewrite called_nil.
  - by destruct (DetectDominantLanguage_result _ _) as [[|]|].
Qed.

Lemma translateText_run p text sourceLang targetLang s :
  translateText p text sourceLang targetLang s
  = (translated p text sourceLang targetLang,
     called s (remote p [CallTranslateText text sourceLang targetLang])).
Proof.
  unfold translated, translateText, remote.
  destruct (credentials_Get _); run.
  - by rewrite called_nil.
  - by destruct (TranslateText_result _ _ _ _).
Qed.

(** ** The posting hook *)

(** The hook, case by case. *)
Lemma MessageWillBePosted_run p post s :
  MessageWillBePosted p post s =
    let text := post_Message post in
    let s1 := called s [CallKVGet (post_UserId post)] in
    match preferenceOf p s (post_UserId post) with
    | None => ((post, ""), s1)
    | Some u =>
      if negb (Activated u) then ((post, ""), s1) else
      let s2 :=
        if String.eqb (SourceLanguage u) autoLanguage
        then called s1 (remote p [CallDetectDominantLanguage text]) else s1 in
      match resolved p text (SourceLanguage u) with
      | None => ((post, "Failed to detect language"), s2)
      | Some sourceLang =>
        if String.eqb sourceLang (TargetLanguage u) then ((post, ""), s2) else
        let s3 := called s2 (remote p [CallTranslateText text sourceLang (TargetLanguage u)]) in
        match translated p text sourceLang (TargetLanguage u) with
        | (_, Some _) => ((post, "Failed to translate message"), s3)
        | (translatedText, None) =>
          if String.eqb translatedText text then ((post, ""), s3)
          else ((withMessage post
                   (annotated text sourceLang (TargetLanguage u) translatedText), ""), s3)
        end
      end
    end.
Proof.
  unfold MessageWillBePosted, preferenceOf, resolved.
  rewrite bind_run'.
  destruct (getUserInfo p (post_UserId post) s) as [[info e] s1] eqn:Hg.
  pose proof (getUserInfo_run p (post_UserId post) s) as Hr.
  rewrite Hg in Hr. injection Hr as _ ->. simpl.
  destruct info as [u|]; [|done].
  destruct (Activated u); [|done]. simpl.
  destruct (String.eqb (SourceLanguage u) autoLanguage).
  - rewrite bind_run', detectLanguage_run.
    destruct (detected p (post_Message post)) as [l [e'|]]; simpl; [done|].
    destruct (String.eqb l (TargetLanguage u)); [done|].
    rewrite bind_run', translateText_run.
    destruct (translated _ _ _ _) as [t [e'|]]; simpl; [done|].
    by destruct (String.eqb t (post_Message post)).
  - destruct (String.eqb _ (TargetLanguage u)); [done|].
    rewrite bind_run', translateText_run.
    destruct (translated _ _ _ _) as [t [e'|]]; simpl; [done|].
    by destruct (String.eqb t (post_Message post)).
Qed.

Lemma preferenceOf_run p s userID :
  preferenceOf p s userID =
    match KVGet_error (services p) userID, kv s !! userID with
    | None, Some b => Unmarshal_UserInfo b
    | _, _ => None
    end.
Proof.
  unfold preferenceOf. rewrite getUserInfo_run. simpl.
  destruct (KVGet_error _ _); [done|].
  destruct (kv s !! userID) as [b|]; [|done].
  by destruct (Unmarshal_UserInfo b).
Qed.

Lemma resolved_given p text sourceLang :
  sourceLang ≠ autoLanguage → resolved p text sourceLang = Some sourceLang.
Proof.
  intros H. unfold resolved.
  by destruct (String.eqb_spec sourceLang autoLanguage).
Qed.

(** C7. When nothing is stored for the poster, or the stored preference is
    not activated, the hook returns the post as it came with an empty
    rejection reason; it has read the store and called nothing else. *)
Theorem hook_passes_through_without_active_preference p post s :
  kv s !! post_UserId post = None
  ∨ (∃ b u, kv s !! post_UserId post = Some b
            ∧ Unmarshal_UserInfo b = Some u ∧ Activated u = false) →
  MessageWillBePosted p post s
  = ((post, ""), called s [CallKVGet (post_UserId post)]).
Proof.
  intros H. rewrite MessageWillBePosted_run, preferenceOf_run. simpl.
  destruct (KVGet_error _ _); [done|].
  destruct H as [->|(b & u & -> & -> & Hu)]; [done|].
  by rewrite Hu.
Qed.

Ltac hook_side :=
  repeat match goal with
         | H : translated _ _ _ _ = _ |- _ => apply (f_equal snd) in H; simpl in H
         end;
  split_and!;
  [ auto
  | intros; congruence
  | split; [intros; try discriminate; eauto 10
           |intros (? & ? & ? & ?); simplify_eq; congruence]
  | split; [intros; try discriminate; eauto 10
           |intros (? & ? & ? & ? & ? & ? & ? & ?); simplify_eq; simpl in *; congruence] ].

(** C1, as the code has it.  The hook hands back the post untouched
    whenever detection or translation fails, but with a rejection reason:
    [Failed to detect language] exactly when the preference is active and
    detection fails, [Failed to translate message] exactly when the source
    differs from the target and the translation call fails; in every other
    case the reason is empty. *)
Theorem hook_rejection_reason p post s post' reason s' :
  MessageWillBePosted p post s = ((post', reason), s') →
  (reason = "" ∨ reason = "Failed to detect language"
   ∨ reason = "Failed to translate message")
  ∧ (reason ≠ "" → post' = post)
  ∧ (reason = "Failed to detect language" ↔
     ∃ u, preferenceOf p s (post_UserId post) = Some u ∧ Activated u = true
          ∧ resolved p (post_Message post) (SourceLanguage u) = None)
  ∧ (reason = "Failed to translate message" ↔
     ∃ u sourceLang e,
       preferenceOf p s (post_UserId post) = Some u ∧ Activated u = true
       ∧ resolved p (post_Message post) (SourceLanguage u) = Some sourceLang
       ∧ sourceLang ≠ TargetLanguage u
       ∧ snd (translated p (post_Message post) sourceLang (TargetLanguage u)) = Some e).
Proof.
  rewrite MessageWillBePosted_run. simpl.
  destruct (preferenceOf p s (post_UserId post)) as [u|] eqn:Hp;
    [|intros [= <- <- <-]; hook_side].
  destruct (Activated u) eqn:Ha; simpl;
    [|intros [= <- <- <-]; hook_side].
  destruct (resolved p (post_Message post) (SourceLanguage u)) as [src|] eqn:Hr;
    [|intros [= <- <- <-]; hook_side].
  destruct (String.eqb_spec src (TargetLanguage u)) as [He|Hne];
    [intros [= <- <- <-]; hook_side|].
  destruct (translated p (post_Message post) src (TargetLanguage u)) as [t [e|]] eqn:Ht;
    [intros [= <- <- <-]; hook_side|].
  destruct (String.eqb t (post_Message post));
    intros [= <- <- <-]; hook_side.
Qed.

(** ** The on-demand handler *)

Lemma GetPost_run p postID s :
  GetPost p postID s =
    (match GetPost_table (services p) !! postID with
     | Some post => (Some post, None)
     | None => (None, Some (mkAppError "GetPost" "app.post.get.app_error" "" StatusNotFound))
     end, called s [CallGetPost postID]).
Proof. reflexivity. Qed.

(** [getGo], case by case. *)
Lemma getGo_run p w r s :
  getGo p w r s =
    if String.eqb (Header_Get r "Mattermost-User-ID") "" then
      (http_Error "Not authorized to translate post" StatusUnauthorized w, s)
    else
    let postID := Query_Get r "post_id" in
    let source := Query_Get r "source" in
    let target := Query_Get r "target" in
    let s1 := called s [CallGetPost postID] in
    match GetPost_table (services p) !! postID with
    | None => (http_Error "No post to translate" StatusBadRequest w, s1)
    | Some post =>
      let text := post_Message post in
      let s2 :=
        if String.eqb source autoLanguage
        then called s1 (remote p [CallDetectDominantLanguage text]) else s1 in
      match resolved p text source with
      | None => (http_Error "Language detection failed" StatusBadRequest w, s2)
      | Some source =>
        let s3 := called s2 (remote p [CallTranslateText text source target]) in
        match translated p text source target with
        | (_, Some _) => (http_Error "Translation failed" StatusBadRequest w, s3)
        | (translatedText, None) =>
          (Write (fst (Marshal_TranslatedMessage
                         (mkTranslatedMessage
                            (postID ++ source ++ target ++ json.FormatInt (post_UpdateAt post))
                            postID source text target translatedText (post_UpdateAt post)))) w,
           s3)
        end
      end
    end.
Proof.
  unfold getGo, resolved.
  destruct (String.eqb (Header_Get r "Mattermost-User-ID") ""); [done|].
  rewrite bind_run', GetPost_run. simpl.
  destruct (GetPost_table _ !! _) as [post|]; [|done]. simpl.
  change "auto" with autoLanguage.
  destruct (String.eqb (Query_Get r "source") autoLanguage).
  - rewrite bind_run', detectLanguage_run.
    destruct (detected p (post_Message post)) as [l [e'|]]; simpl; [done|].
    rewrite bind_run', translateText_run.
    by destruct (translated _ _ _ _) as [t [e'|]].
  - rewrite bind_run', translateText_run.
    by destruct (translated _ _ _ _) as [t [e'|]].
Qed.

Lemma remote_cases p cs : remote p cs = [] ∨ remote p cs = cs.
Proof. unfold remote. destruct (credentials_Get _); auto. Qed.

(** C8. With a source language other than the sentinel, no detection call
    is made, by the hook for a stored preference and by the on-demand
    handler for a request, and the language handed to the translation
    service is the given one. *)
Theorem detection_only_for_auto p sourceLang :
  sourceLang ≠ autoLanguage →
  (∀ post s u,
     preferenceOf p s (post_UserId post) = Some u →
     SourceLanguage u = sourceLang →
     ∃ cs, snd (MessageWillBePosted p post s) = called s cs
           ∧ Forall (λ c, isDetect c = false) cs
           ∧ ∀ text src tgt, CallTranslateText text src tgt ∈ cs → src = sourceLang)
  ∧ (∀ w r s,
       Query_Get r "source" = sourceLang →
       ∃ cs, snd (getGo p w r s) = called s cs
             ∧ Forall (λ c, isDetect c = false) cs
             ∧ ∀ text src tgt, CallTranslateText text src tgt ∈ cs → src = sourceLang)
  ∧ (∀ text, resolved p text sourceLang = Some sourceLang).
Proof.
  intros Hne. split_and!.
  - intros post s u Hp Hs. rewrite MessageWillBePosted_run, Hp. simpl.
    rewrite resolved_given by congruence. subst sourceLang.
    destruct (String.eqb_spec (SourceLanguage u) autoLanguage); [done|].
    destruct (Activated u); simpl.
    2:{ eexists. split_and!; [done|repeat constructor|].
        intros ??? [=]%list_elem_of_singleton. }
    destruct (String.eqb _ (TargetLanguage u)).
    { eexists. split_and!; [done|repeat constructor|].
      intros ??? [=]%list_elem_of_singleton. }
    assert (
      ∃ cs, called (called s [CallKVGet (post_UserId post)])
              (remote p [CallTranslateText (post_Message post) (SourceLanguage u) (TargetLanguage u)])
            = called s cs
            ∧ Forall (λ c, isDetect c = false) cs
            ∧ ∀ text src tgt, CallTranslateText text src tgt ∈ cs → src = SourceLanguage u) as H.
    { rewrite called_called. eexists. split; [done|].
      destruct (remote_cases p [CallTranslateText (post_Message post)
                                  (SourceLanguage u) (TargetLanguage u)]) as [->| ->].
      - split; [repeat constructor|]. intros ??? [=]%list_elem_of_singleton.
      - split; [repeat constructor|].
        intros ??? [[=]|[=]%list_elem_of_singleton]%elem_of_cons. done. }
    destruct (translated _ _ _ _) as [t [e|]]; [exact H|].
    destruct (String.eqb t _); exact H.
  - intros w r s Hs. rewrite getGo_run. simpl.
    destruct (String.eqb (Header_Get r "Mattermost-User-ID") "").
    { exists []. rewrite called_nil. split_and!; [done|constructor|].
      intros ??? []%elem_of_nil. }
    destruct (GetPost_table _ !! _) as [post|].
    2:{ eexists. split_and!; [done|repeat constructor|].
        intros ??? [=]%list_elem_of_singleton. }
    rewrite resolved_given by congruence. rewrite Hs.
    destruct (String.eqb_spec sourceLang autoLanguage); [done|].
    assert (∃ cs, called (called s [CallGetPost (Query_Get r "post_id")])
              (remote p [CallTranslateText (post_Message post) sourceLang (Query_Get r "target")])
            = called s cs
            ∧ Forall (λ c, isDetect c = false) cs
            ∧ ∀ text src tgt, CallTranslateText text src tgt ∈ cs → src = sourceLang) as H.
    { rewrite called_called. eexists. split; [done|].
      destruct (remote_cases p [CallTranslateText (post_Message post)
                                  sourceLang (Query_Get r "target")]) as [->| ->].
      - split; [repeat constructor|]. intros ??? [=]%list_elem_of_singleton.
      - split; [repeat constructor|].
        intros ??? [[=]|[=]%list_elem_of_singleton]%elem_of_cons. done. }
    by destruct (translated _ _ _ _) as [t [e|]].
  - intros text. by apply resolved_given.
Qed.

(** C3. The on-demand handler has no test of the resolved source against
    the target: with a caller identity, a post found, usable credentials
    and a source that resolves to the target language, it still calls the
    translation service, with the same language on both sides. *)
Theorem getGo_translates_equal_languages p w r s post :
  Header_Get r "Mattermost-User-ID" ≠ "" →
  GetPost_table (services p) !! Query_Get r "post_id" = Some post →
  credentials_Get (getConfiguration p) = None →
  resolved p (post_Message post) (Query_Get r "source") = Some (Query_Get r "target") →
  CallTranslateText (post_Message post) (Query_Get r "target") (Query_Get r "target")
    ∈ calls (snd (getGo p w r s)).
Proof.
  intros Hu Hp Hc Hr. rewrite getGo_run. simpl.
  destruct (String.eqb_spec (Header_Get r "Mattermost-User-ID") ""); [done|].
  rewrite Hp, Hr. unfold remote. rewrite Hc.
  assert (∀ s2, CallTranslateText (post_Message post) (Query_Get r "target")
                  (Query_Get r "target")
                ∈ calls (called s2 [CallTranslateText (post_Message post)
                                      (Query_Get r "target") (Query_Get r "target")])) as H.
  { intros s2. simpl. apply elem_of_app. right. by apply list_elem_of_singleton. }
  destruct (translated _ _ _ _) as [t [e|]]; exact (H _).
Qed.

(** ** Routing *)

(** An unconfigured plugin writes its 501 and then routes the request all
    the same. *)
Lemma ServeHTTP_unconfigured p w r s e :
  Plugin_IsValid (getConfiguration p) = Some e →
  ServeHTTP p w r s
  = route p (Header_Set "Content-Type" "application/json"
               (http_Error "This plugin is not configured." StatusNotImplemented w)) r s.
Proof. intros H. unfold ServeHTTP. by rewrite H. Qed.

(** The status of a response is settled by the first header sent. *)
Lemma rw_status_Header_Set k v w : rw_status (Header_Set k v w) = rw_status w.
Proof. reflexivity. Qed.

Lemma rw_status_WriteHeader code w c :
  rw_status w = Some c → rw_status (WriteHeader code w) = Some c.
Proof.
  unfold rw_status, WriteHeader.
  destruct (rw_sent w) eqn:E; simpl; [by rewrite E|done].
Qed.

Lemma rw_status_Write b w c :
  rw_status w = Some c → rw_status (Write b w) = Some c.
Proof.
  intros H. apply (rw_status_WriteHeader StatusOK) in H.
  exact H.
Qed.

Lemma rw_status_http_Error msg code w c :
  rw_status w = Some c → rw_status (http_Error msg code w) = Some c.
Proof.
  intros H. unfold http_Error.
  by apply rw_status_Write, rw_status_WriteHeader.
Qed.

Lemma rw_status_http_Error_fresh msg code w :
  rw_status w = None → rw_status (http_Error msg code w) = Some code.
Proof.
  unfold http_Error, Write, WriteHeader, rw_status. simpl.
  destruct (rw_sent w); [done|]. by simpl.
Qed.

(** ** Validation *)


(** ** The annotation of the hook *)

(** C4. When the hook translates (an active preference, a source that
    resolves to a language other than the target, a translation that
    succeeds and differs from the text), the outgoing message is the
    original text, a blank line, the header naming the two languages by
    their catalog names (the code itself where the catalog has no entry),
    and the translated text; the rejection reason is empty.  In the
    scenario of the preference from [en] to [fr], the text [Hello] and the
    translation [Bonjour], with a catalog naming English and French, the
    outgoing message is exactly the annotated one. *)
Theorem hook_annotates_translation p post s u sourceLang translatedText :
  preferenceOf p s (post_UserId post) = Some u →
  Activated u = true →
  resolved p (post_Message post) (SourceLanguage u) = Some sourceLang →
  sourceLang ≠ TargetLanguage u →
  translated p (post_Message post) sourceLang (TargetLanguage u) = (translatedText, None) →
  translatedText ≠ post_Message post →
  fst (MessageWillBePosted p post s)
  = (withMessage post
       (post_Message post ++ nl ++ nl
          ++ "(Translated: "
          ++ match languageCodes !! sourceLang with Some name => name | None => sourceLang end
          ++ " → "
          ++ match languageCodes !! TargetLanguage u with
             | Some name => name | None => TargetLanguage u end
          ++ ")" ++ nl ++ translatedText), "")
  ∧ (SourceLanguage u = "en" → TargetLanguage u = "fr" →
     post_Message post = "Hello" → translatedText = "Bonjour" →
     languageCodes !! "en" = Some "English" → languageCodes !! "fr" = Some "French" →
     post_Message (fst (fst (MessageWillBePosted p post s)))
     = "Hello" ++ nl ++ nl ++ "(Translated: English → French)" ++ nl ++ "Bonjour").
Proof.
  intros Hp Ha Hr Hne Ht Hd.
  assert (fst (MessageWillBePosted p post s)
          = (withMessage post
               (annotated (post_Message post) sourceLang (TargetLanguage u) translatedText),
             "")) as H.
  { rewrite MessageWillBePosted_run, Hp. simpl.
    rewrite Ha, Hr. simpl.
    destruct (String.eqb_spec sourceLang (TargetLanguage u)); [done|].
    rewrite Ht.
    by destruct (String.eqb_spec translatedText (post_Message post)). }
  split; [exact H|].
  intros Hs Htg Hm Htr Len Lfr. rewrite H. cbn [fst post_Message withMessage].
  rewrite Hs in Hr. rewrite resolved_given in Hr by discriminate.
  injection Hr as <-.
  unfold annotated, langNameOrCode. by rewrite Htg, Hm, Htr, Len, Lfr.
Qed.

(** ** Writing a preference and reading it back *)

Lemma setUserInfo_run p u s :
  IsValid u = None →
  setUserInfo p u s =
    match KVSet_error (services p) (UserID u) (fst (Marshal_UserInfo u)) with
    | Some _ =>
      (Some (mkAPIErrorResponse "unable_to_save" "Unable to save user info."
               StatusBadRequest),
       called s [CallKVSet (UserID u) (fst (Marshal_UserInfo u))])
    | None =>
      (None,
       mkState (<[UserID u := fst (Marshal_UserInfo u)]> (kv s))
         (calls s ++ [CallKVSet (UserID u) (fst (Marshal_UserInfo u));
                      CallPublishWebSocketEvent "info_change"
                        (<["user_id" := VString (UserID u)]>
                         (<["activated" := VBool (Activated u)]>
                          (<["source_language" := VString (SourceLanguage u)]>
                           (<["target_language" := VString (TargetLanguage u)]> ∅))))
                        (UserID u)]))
    end.
Proof.
  intros Hv. unfold setUserInfo. rewrite Hv.
  unfold Marshal_UserInfo at 1. cbv iota beta.
  rewrite bind_run'. unfold KVSet at 1 2. rewrite !bind_run'. cbn [call fst snd].
  fold (Marshal_UserInfo u).
  change (("{" ++ json.member "user_id" (json.encodeString (UserID u))
    ++ "," ++ json.member "activated" (json.encodeBool (Activated u))
    ++ "," ++ json.member "source_language" (json.encodeString (SourceLanguage u))
    ++ "," ++ json.member "target_language" (json.encodeString (TargetLanguage u))
    ++ "}")) with (fst (Marshal_UserInfo u)).
  destruct (KVSet_error _ _ _); [done|].
  cbn [fst snd kv calls].
  unfold emitUserInfoChange, PublishWebSocketEvent, call, ret.
  rewrite bind_run'. cbn [fst snd kv calls mret M_ret].
  by rewrite <- app_assoc.
Qed.

(** C6, as the code has it.  A valid preference made of well-formed UTF-8,
    written by [setUserInfo] to a store that takes the write, is what
    [getUserInfo] returns for the same user from a store that answers the
    read.  (The encoder replaces every byte that is not UTF-8, so a
    preference with such a byte does not come back.) *)
Theorem getUserInfo_after_setUserInfo p u s :
  IsValid u = None →
  wellFormedInfo u →
  KVSet_error (services p) (UserID u) (fst (Marshal_UserInfo u)) = None →
  KVGet_error (services p) (UserID u) = None →
  ∃ s1, setUserInfo p u s = (None, s1)
        ∧ kv s1 !! UserID u = Some (fst (Marshal_UserInfo u))
        ∧ fst (getUserInfo p (UserID u) s1) = (Some u, None).
Proof.
  intros Hv Hw Hset Hget. rewrite setUserInfo_run, Hset by done.
  eexists. split; [reflexivity|].
  rewrite getUserInfo_run. cbn [kv fst].
  rewrite Hget, lookup_insert_eq.
  split; [done|]. by rewrite Unmarshal_Marshal_UserInfo.
Qed.

(** Whatever the handlers do after it, the status of an unconfigured
    plugin's response is the 501 sent first. *)
Lemma route_keeps_status p w r s c :
  rw_status w = Some c → rw_status (fst (route p w r s)) = Some c.
Proof.
  intros Hw. unfold route, http_NotFound.
  repeat case_match; cbn [fst ret mret M_ret];
    try by apply rw_status_http_Error.
  - rewrite getGo_run. cbv zeta.
    repeat case_match; cbn [fst];
      (by apply rw_status_http_Error) || (by apply rw_status_Write).
  - unfold getInfo. destruct (String.eqb _ ""); [done|].
    rewrite bind_run', getUserInfo_run. cbn [fst snd].
    repeat case_match; simplify_eq; cbn [fst ret mret M_ret]; try done;
      by apply rw_status_Write.
  - unfold setInfo.
    repeat case_match; cbn [fst ret mret M_ret];
      try by apply rw_status_http_Error.
    rewrite bind_run'.
    repeat case_match; cbn [fst ret mret M_ret];
      (by apply rw_status_http_Error) || (by apply rw_status_Write).
Qed.

(** X25. The status an unconfigured plugin sends on a fresh response is 501,
    whatever the route does afterwards. *)
Lemma ServeHTTP_unconfigured_status p w r s e :
  Plugin_IsValid (getConfiguration p) = Some e →
  rw_status w = None →
  rw_status (fst (ServeHTTP p w r s)) = Some StatusNotImplemented.
Proof.
  intros Hv Hw. rewrite (ServeHTTP_unconfigured p w r s e Hv).
  apply route_keeps_status. rewrite rw_status_Header_Set.
  by apply rw_status_http_Error_fresh.
Qed.

(** * Further properties of the plugin *)

(** ** Validation *)

(** X1. [IsValid] accepts a preference exactly when its user identifier has 26
    bytes, both languages are present and named by the catalog, they
    differ, and the target is not the sentinel. *)
Theorem IsValid_accepts_exactly u :
  IsValid u = None ↔
  String.length (UserID u) = 26%nat
  ∧ SourceLanguage u ≠ "" ∧ TargetLanguage u ≠ ""
  ∧ languageName (SourceLanguage u) ≠ "" ∧ languageName (TargetLanguage u) ≠ ""
  ∧ SourceLanguage u ≠ TargetLanguage u
  ∧ TargetLanguage u ≠ autoLanguage.
Proof.
  unfold IsValid.
  destruct (String.eqb_spec (UserID u) "") as [E|_].
  { cbn [orb]. rewrite E. split; [done|]. by intros [? _]. }
  destruct (Nat.eqb_spec (String.length (UserID u)) 26) as [E|E]; cbn [orb negb];
    [|split; [done|tauto]].
  destruct (String.eqb_spec (SourceLanguage u) ""); [split; [done|tauto]|].
  destruct (String.eqb_spec (TargetLanguage u) ""); [split; [done|tauto]|].
  destruct (String.eqb_spec (languageName (SourceLanguage u)) ""); [split; [done|tauto]|].
  destruct (String.eqb_spec (languageName (TargetLanguage u)) ""); [split; [done|tauto]|].
  destruct (String.eqb_spec (SourceLanguage u) (TargetLanguage u)); [split; [done|tauto]|].
  destruct (String.eqb_spec (TargetLanguage u) autoLanguage); [split; [done|tauto]|].
  tauto.
Qed.

(** ** The preference store *)

(** X2. When the store refuses the write, [setUserInfo] answers
    [unable_to_save]: the store is as it was and nothing is announced; the
    attempted write is the only call. *)
Theorem setUserInfo_store_failure p u s e :
  IsValid u = None →
  KVSet_error (services p) (UserID u) (fst (Marshal_UserInfo u)) = Some e →
  setUserInfo p u s
  = (Some (mkAPIErrorResponse "unable_to_save" "Unable to save user info." StatusBadRequest),
     called s [CallKVSet (UserID u) (fst (Marshal_UserInfo u))]).
Proof. intros Hv He. by rewrite setUserInfo_run, He. Qed.

(** X3. A successful [setUserInfo] writes the encoded preference under the
    user's identifier and nowhere else, and announces it once, to that
    user, with the four fields of the preference. *)
Theorem setUserInfo_success_effects p u s :
  IsValid u = None →
  KVSet_error (services p) (UserID u) (fst (Marshal_UserInfo u)) = None →
  ∃ s1,
    setUserInfo p u s = (None, s1)
    ∧ kv s1 !! UserID u = Some (fst (Marshal_UserInfo u))
    ∧ (∀ key, key ≠ UserID u → kv s1 !! key = kv s !! key)
    ∧ calls s1 = (calls s ++ [CallKVSet (UserID u) (fst (Marshal_UserInfo u));
                              CallPublishWebSocketEvent "info_change"
                                (infoChangePayload u) (UserID u)])%list
    ∧ infoChangePayload u !! "user_id" = Some (VString (UserID u))
    ∧ infoChangePayload u !! "activated" = Some (VBool (Activated u))
    ∧ infoChangePayload u !! "source_language" = Some (VString (SourceLanguage u))
    ∧ infoChangePayload u !! "target_language" = Some (VString (TargetLanguage u))
    ∧ size (infoChangePayload u) = 4%nat.
Proof.
  intros Hv He. rewrite setUserInfo_run, He by done.
  eexists. split; [reflexivity|]. cbn [kv calls].
  split_and!; try done.
  - apply lookup_insert_eq.
  - intros key Hk. by rewrite lookup_insert_ne.
Qed.

(** X4. Whatever [setUserInfo] does for one user, what [getUserInfo] finds for
    another is as before. *)
Theorem setUserInfo_leaves_other_users p u s other :
  other ≠ UserID u →
  fst (getUserInfo p other (snd (setUserInfo p u s))) = fst (getUserInfo p other s).
Proof.
  intros Hne. rewrite !getUserInfo_run. cbn [fst].
  destruct (IsValid u) as [msg|] eqn:Hv.
  - by rewrite (setUserInfo_invalid p u s msg Hv).
  - rewrite setUserInfo_run by done.
    destruct (KVSet_error _ _ _); [done|]. cbn [snd kv].
    by rewrite lookup_insert_ne.
Qed.

(** ** The posting hook *)

Lemma Forall_remote (P : Call → Prop) p cs : Forall P cs → Forall P (remote p cs).
Proof. intros H. destruct (remote_cases p cs) as [-> | ->]; [constructor|done]. Qed.

(** The calls of the hook, in order: the read of the preference, the
    detection if the source is the sentinel, the translation if it comes
    to it. *)
Lemma MessageWillBePosted_calls p post s :
  ∃ cs, snd (MessageWillBePosted p post s) = called s cs
        ∧ Forall (λ c, isWrite c = false) cs.
Proof.
  rewrite MessageWillBePosted_run. cbv zeta.
  set (text := post_Message post).
  destruct (preferenceOf p s (post_UserId post)) as [u|];
    [|eexists; split; [reflexivity|repeat constructor]].
  destruct (negb (Activated u));
    [eexists; split; [reflexivity|repeat constructor]|].
  assert (∃ cs2, (if String.eqb (SourceLanguage u) autoLanguage
                  then called (called s [CallKVGet (post_UserId post)])
                         (remote p [CallDetectDominantLanguage text])
                  else called s [CallKVGet (post_UserId post)]) = called s cs2
                 ∧ Forall (λ c, isWrite c = false) cs2) as (cs2 & -> & H2).
  { destruct (String.eqb _ autoLanguage).
    - rewrite called_called. eexists. split; [reflexivity|].
      apply Forall_app. split; [repeat constructor|].
      apply Forall_remote. repeat constructor.
    - eexists. split; [reflexivity|repeat constructor]. }
  destruct (resolved p text (SourceLanguage u)) as [src|]; [|by exists cs2].
  destruct (String.eqb src (TargetLanguage u)); [by exists cs2|].
  rewrite called_called.
  assert (Forall (λ c, isWrite c = false)
            (cs2 ++ remote p [CallTranslateText text src (TargetLanguage u)])) as H3.
  { apply Forall_app. split; [done|]. apply Forall_remote. repeat constructor. }
  destruct (translated p text src (TargetLanguage u)) as [t [e|]]; [by eexists|].
  destruct (String.eqb t text); by eexists.
Qed.

(** X7. The hook only reads: it leaves the store as it is, and among its calls
    there is no write to the store and no published event. *)
Theorem hook_only_reads p post s :
  kv (snd (MessageWillBePosted p post s)) = kv s
  ∧ ∃ cs, calls (snd (MessageWillBePosted p post s)) = (calls s ++ cs)%list
          ∧ Forall (λ c, isWrite c = false) cs.
Proof.
  destruct (MessageWillBePosted_calls p post s) as (cs & -> & H).
  split; [done|]. by exists cs.
Qed.

(** X8. The hook never loses what was typed: the post it returns has the
    identifier, the author and the time of the one it was given, and its
    message begins with the original text. *)
Theorem hook_keeps_original p post s :
  let post' := fst (fst (MessageWillBePosted p post s)) in
  post_Id post' = post_Id post
  ∧ post_UserId post' = post_UserId post
  ∧ post_UpdateAt post' = post_UpdateAt post
  ∧ ∃ suffix, post_Message post' = post_Message post ++ suffix.
Proof.
  cbv zeta. rewrite MessageWillBePosted_run. cbv zeta.
  assert (post_Id post = post_Id post ∧ post_UserId post = post_UserId post
          ∧ post_UpdateAt post = post_UpdateAt post
          ∧ ∃ suffix, post_Message post = post_Message post ++ suffix) as Hsame.
  { split_and!; try done. exists "". clear. induction (post_Message post); simpl; congruence. }
  destruct (preferenceOf p s (post_UserId post)) as [u|]; [|exact Hsame].
  destruct (negb (Activated u)); [exact Hsame|].
  destruct (resolved p _ (SourceLanguage u)) as [src|]; [|exact Hsame].
  destruct (String.eqb src (TargetLanguage u)); [exact Hsame|].
  destruct (translated p _ src (TargetLanguage u)) as [t [e|]]; [exact Hsame|].
  destruct (String.eqb t _); [exact Hsame|].
  cbn [fst withMessage post_Id post_UserId post_UpdateAt post_Message].
  split_and!; try done. unfold annotated. eexists. reflexivity.
Qed.

(** X9. A translation equal to the text, byte for byte, leaves the post as it
    came, with no rejection reason. *)
Theorem hook_skips_identical_translation p post s u sourceLang :
  preferenceOf p s (post_UserId post) = Some u →
  Activated u = true →
  resolved p (post_Message post) (SourceLanguage u) = Some sourceLang →
  translated p (post_Message post) sourceLang (TargetLanguage u)
  = (post_Message post, None) →
  fst (MessageWillBePosted p post s) = (post, "").
Proof.
  intros Hp Ha Hr Ht. rewrite MessageWillBePosted_run, Hp. cbv zeta.
  rewrite Ha, Hr. cbn [negb].
  destruct (String.eqb sourceLang (TargetLanguage u)); [done|].
  rewrite Ht. by rewrite String.eqb_refl.
Qed.

(** X10. When the source, given or detected, is the target language, the hook
    leaves the post as it came and does not call the translation
    service. *)
Theorem hook_skips_equal_languages p post s u :
  preferenceOf p s (post_UserId post) = Some u →
  resolved p (post_Message post) (SourceLanguage u) = Some (TargetLanguage u) →
  fst (MessageWillBePosted p post s) = (post, "")
  ∧ ∃ cs, calls (snd (MessageWillBePosted p post s)) = (calls s ++ cs)%list
          ∧ Forall (λ c, isTranslate c = false) cs.
Proof.
  intros Hp Hr. rewrite MessageWillBePosted_run, Hp. cbv zeta.
  destruct (negb (Activated u)).
  { split; [done|]. eexists. split; [reflexivity|repeat constructor]. }
  rewrite Hr, String.eqb_refl. split; [done|].
  destruct (String.eqb _ autoLanguage).
  - rewrite called_called. eexists. split; [reflexivity|].
    apply Forall_app. split; [repeat constructor|].
    apply Forall_remote. repeat constructor.
  - eexists. split; [reflexivity|repeat constructor].
Qed.

(** X11. With an active preference whose source is the sentinel and usable
    credentials, the hook asks the detection service once, right after
    reading the preference, and hands it the whole message. *)
Theorem hook_detects_once p post s u :
  preferenceOf p s (post_UserId post) = Some u →
  Activated u = true →
  SourceLanguage u = autoLanguage →
  credentials_Get (getConfiguration p) = None →
  ∃ cs, calls (snd (MessageWillBePosted p post s))
        = (calls s ++ [CallKVGet (post_UserId post);
                       CallDetectDominantLanguage (post_Message post)] ++ cs)%list
        ∧ Forall (λ c, isDetect c = false) cs.
Proof.
  intros Hp Ha Hs Hc. rewrite MessageWillBePosted_run, Hp. cbv zeta.
  rewrite Ha, Hs, String.eqb_refl. cbn [negb]. unfold remote. rewrite Hc.
  rewrite called_called.
  destruct (resolved p _ autoLanguage) as [src|].
  2:{ exists []. split; [reflexivity|constructor]. }
  destruct (String.eqb src (TargetLanguage u)).
  { exists []. split; [reflexivity|constructor]. }
  assert (∀ r : Post * string,
    ∃ cs, calls (snd (r, called (called s
                    ([CallKVGet (post_UserId post)]
                       ++ [CallDetectDominantLanguage (post_Message post)]))
                    [CallTranslateText (post_Message post) src (TargetLanguage u)]))
          = (calls s ++ [CallKVGet (post_UserId post);
                         CallDetectDominantLanguage (post_Message post)] ++ cs)%list
          ∧ Forall (λ c, isDetect c = false) cs) as H.
  { intros r. exists [CallTranslateText (post_Message post) src (TargetLanguage u)].
    split; [|repeat constructor]. cbn [snd calls called]. by rewrite <- !app_assoc. }
  destruct (translated p _ src (TargetLanguage u)) as [t [e|]]; [apply H|].
  destruct (String.eqb t _); apply H.
Qed.

(** ** The remote services *)

(** X12. Without an access key or without a secret, neither [detectLanguage]
    nor [translateText] reaches its remote service: each fails on the
    credentials and the state, the log of calls included, is as it was. *)
Theorem no_remote_call_without_credentials p s :
  AWSAccessKeyID (getConfiguration p) = "" ∨ AWSSecretAccessKey (getConfiguration p) = "" →
  (∀ text, detectLanguage p text s = (("", Some "Invalid AWS credentials"), s))
  ∧ (∀ text sourceLang targetLang,
       translateText p text sourceLang targetLang s
       = (("", Some (mkAppError "translateText" "BadCredentials"
                       "Invalid AWS credentials" StatusForbidden)), s)).
Proof.
  intros H.
  assert (∃ e, credentials_Get (getConfiguration p) = Some e) as [e He].
  { unfold credentials_Get. destruct H as [-> | ->]; cbn [String.eqb orb]; [by eexists|].
    rewrite orb_true_r. by eexists. }
  split; intros; unfold detectLanguage, translateText; by rewrite He.
Qed.

(** X13. With usable credentials [detectLanguage] succeeds exactly when the
    service names at least one language, and its answer is the first one
    named. *)
Theorem detectLanguage_first_language p text s :
  credentials_Get (getConfiguration p) = None →
  (∀ language, fst (detectLanguage p text s) = (language, None) ↔
     ∃ others, DetectDominantLanguage_result (services p) text = Some (language :: others))
  ∧ snd (detectLanguage p text s) = called s [CallDetectDominantLanguage text].
Proof.
  intros Hc. rewrite detectLanguage_run. unfold detected, detectLanguage, remote.
  rewrite Hc. cbn [fst snd]. split; [|done]. intros language.
  unfold mbind, M_bind, call, ret, mret, M_ret. cbn [fst].
  destruct (DetectDominantLanguage_result _ _) as [[|l ls]|]; cbn [fst].
  - split; [done|]. by intros [? ?].
  - split; [intros [= ->]; by exists ls|]. by intros [? [= -> _]].
  - split; [done|]. by intros [? ?].
Qed.

(** ** The on-demand handler *)

(** X14. [getGo] refuses before it does anything: without the identity of the
    caller it answers 401 and makes no call; for a post that cannot be
    fetched it answers 400 after that one fetch. *)
Theorem getGo_refuses_early p w r s :
  rw_status w = None →
  (Header_Get r "Mattermost-User-ID" = "" →
   getGo p w r s = (http_Error "Not authorized to translate post" StatusUnauthorized w, s)
   ∧ rw_status (fst (getGo p w r s)) = Some StatusUnauthorized)
  ∧ (Header_Get r "Mattermost-User-ID" ≠ "" →
     GetPost_table (services p) !! Query_Get r "post_id" = None →
     getGo p w r s = (http_Error "No post to translate" StatusBadRequest w,
                      called s [CallGetPost (Query_Get r "post_id")])
     ∧ rw_status (fst (getGo p w r s)) = Some StatusBadRequest).
Proof.
  intros Hw. rewrite getGo_run. cbv zeta. split.
  - intros ->. cbn [String.eqb fst]. split; [done|].
    by apply rw_status_http_Error_fresh.
  - intros Hu Hp. destruct (String.eqb_spec (Header_Get r "Mattermost-User-ID") "");
      [done|].
    rewrite Hp. split; [done|]. by apply rw_status_http_Error_fresh.
Qed.

(** X15. A failure of detection or of translation is answered 400 by [getGo];
    after a failed detection the translation service is not called. *)
Theorem getGo_remote_failures p w r s post :
  rw_status w = None →
  Header_Get r "Mattermost-User-ID" ≠ "" →
  GetPost_table (services p) !! Query_Get r "post_id" = Some post →
  (resolved p (post_Message post) (Query_Get r "source") = None →
   fst (getGo p w r s) = http_Error "Language detection failed" StatusBadRequest w
   ∧ rw_status (fst (getGo p w r s)) = Some StatusBadRequest
   ∧ ∃ cs, calls (snd (getGo p w r s)) = (calls s ++ cs)%list
           ∧ Forall (λ c, isTranslate c = false) cs)
  ∧ (∀ sourceLang e,
       resolved p (post_Message post) (Query_Get r "source") = Some sourceLang →
       snd (translated p (post_Message post) sourceLang (Query_Get r "target")) = Some e →
       fst (getGo p w r s) = http_Error "Translation failed" StatusBadRequest w
       ∧ rw_status (fst (getGo p w r s)) = Some StatusBadRequest).
Proof.
  intros Hw Hu Hp. rewrite getGo_run. cbv zeta.
  destruct (String.eqb_spec (Header_Get r "Mattermost-User-ID") ""); [done|].
  rewrite Hp. split.
  - intros ->. cbn [fst snd]. split_and!; [done|by apply rw_status_http_Error_fresh|].
    destruct (String.eqb _ autoLanguage).
    + rewrite called_called. eexists. split; [reflexivity|].
      apply Forall_app. split; [repeat constructor|].
      apply Forall_remote. repeat constructor.
    + eexists. split; [reflexivity|repeat constructor].
  - intros sourceLang e -> He.
    destruct (translated _ _ _ _) as [t [e'|]]; [|done].
    cbn [fst]. split; [done|]. by apply rw_status_http_Error_fresh.
Qed.

(** X16. The record [getGo] answers with: its identifier is the post
    identifier, the source, the target and the time of the post in decimal,
    joined; the source it reports is the resolved one, the text and the time
    are those of the post as fetched.  The status is 200. *)
Theorem getGo_response p w r s post sourceLang translatedText :
  rw_status w = None →
  Header_Get r "Mattermost-User-ID" ≠ "" →
  GetPost_table (services p) !! Query_Get r "post_id" = Some post →
  resolved p (post_Message post) (Query_Get r "source") = Some sourceLang →
  translated p (post_Message post) sourceLang (Query_Get r "target")
  = (translatedText, None) →
  fst (getGo p w r s)
  = Write (fst (Marshal_TranslatedMessage
                  (mkTranslatedMessage
                     (Query_Get r "post_id" ++ sourceLang ++ Query_Get r "target"
                        ++ json.FormatInt (post_UpdateAt post))
                     (Query_Get r "post_id") sourceLang (post_Message post)
                     (Query_Get r "target") translatedText (post_UpdateAt post)))) w
  ∧ rw_status (fst (getGo p w r s)) = Some StatusOK.
Proof.
  intros Hw Hu Hp Hr Ht. rewrite getGo_run. cbv zeta.
  destruct (String.eqb_spec (Header_Get r "Mattermost-User-ID") ""); [done|].
  rewrite Hp, Hr, Ht. cbn [fst]. split; [done|].
  unfold Write, WriteHeader, rw_status in *.
  destruct (rw_sent w); [done|]. done.
Qed.

(** X17. [getGo] and [getInfo] only read: whatever the request, the store is
    left as it is and they make no write to it and publish nothing. *)
Theorem handlers_only_read p w r s :
  (kv (snd (getGo p w r s)) = kv s
   ∧ ∃ cs, calls (snd (getGo p w r s)) = (calls s ++ cs)%list
           ∧ Forall (λ c, isWrite c = false) cs)
  ∧ (kv (snd (getInfo p w r s)) = kv s
     ∧ ∃ cs, calls (snd (getInfo p w r s)) = (calls s ++ cs)%list
             ∧ Forall (λ c, isWrite c = false) cs).
Proof.
  split.
  - assert (∃ cs, snd (getGo p w r s) = called s cs
                  ∧ Forall (λ c, isWrite c = false) cs) as (cs & -> & H);
      [|split; [done|by exists cs]].
    rewrite getGo_run. cbv zeta.
    destruct (String.eqb _ "");
      [exists []; rewrite called_nil; split; [done|constructor]|].
    destruct (GetPost_table _ !! _) as [post|];
      [|eexists; split; [reflexivity|repeat constructor]].
    assert (∃ cs2, (if String.eqb (Query_Get r "source") autoLanguage
                    then called (called s [CallGetPost (Query_Get r "post_id")])
                           (remote p [CallDetectDominantLanguage (post_Message post)])
                    else called s [CallGetPost (Query_Get r "post_id")]) = called s cs2
                   ∧ Forall (λ c, isWrite c = false) cs2) as (cs2 & -> & H2).
    { destruct (String.eqb _ autoLanguage).
      - rewrite called_called. eexists. split; [reflexivity|].
        apply Forall_app. split; [repeat constructor|].
        apply Forall_remote. repeat constructor.
      - eexists. split; [reflexivity|repeat constructor]. }
    destruct (resolved p _ _) as [src|]; [|by exists cs2].
    rewrite called_called.
    assert (Forall (λ c, isWrite c = false)
              (cs2 ++ remote p [CallTranslateText (post_Message post) src
                                  (Query_Get r "target")])) as H3.
    { apply Forall_app. split; [done|]. apply Forall_remote. repeat constructor. }
    destruct (translated p _ src _) as [t [e|]]; by eexists.
  - unfold getInfo. destruct (String.eqb _ "").
    { split; [done|]. exists []. split; [by rewrite app_nil_r|constructor]. }
    rewrite bind_run', getUserInfo_run. cbn [fst snd].
    assert (kv (called s [CallKVGet (Header_Get r "Mattermost-User-ID")]) = kv s
            ∧ ∃ cs, calls (called s [CallKVGet (Header_Get r "Mattermost-User-ID")])
                    = (calls s ++ cs)%list
                    ∧ Forall (λ c, isWrite c = false) cs) as H.
    { split; [done|]. eexists. split; [reflexivity|repeat constructor]. }
    repeat case_match; simplify_eq; exact H.
Qed.

(** ** What the decoder produces is well-formed UTF-8 *)

Lemma byteZ_zbyte z : 0 ≤ z < 256 → byteZ (zbyte z) = z.
Proof.
  intros H. unfold zbyte, byteZ. rewrite N_ascii_embedding by lia. lia.
Qed.

Lemma ValidString_loop_mono f :
  ∀ f' s, utf8.ValidString_loop f s = true → (f ≤ f')%nat →
          utf8.ValidString_loop f' s = true.
Proof.
  induction f as [|f IH]; intros f' s H Hle.
  - destruct s; [|discriminate H]. by destruct f'.
  - destruct f' as [|f']; [lia|]. destruct s as [|c rest]; [done|].
    cbn [utf8.ValidString_loop] in *.
    destruct (byteZ c <? utf8.RuneSelf); [apply IH; [done|lia]|].
    destruct (utf8.DecodeRuneInString (String c rest)) as [r size].
    destruct (size =? 1)%nat; [done|]. apply IH; [done|lia].
Qed.

Lemma ValidString_loop_S f c rest :
  utf8.ValidString_loop (S f) (String c rest)
  = if byteZ c <? utf8.RuneSelf then utf8.ValidString_loop f rest
    else
      let '(r, size) := utf8.DecodeRuneInString (String c rest) in
      if (size =? 1)%nat then false
      else utf8.ValidString_loop f (str_drop size (String c rest)).
Proof. reflexivity. Qed.

Lemma wellFormed_nil : wellFormed "".
Proof. reflexivity. Qed.

Lemma wellFormed_ascii c t :
  byteZ c < 0x80 → wellFormed t → wellFormed (String c t).
Proof.
  intros Hc Ht. unfold wellFormed, utf8.ValidString in *.
  cbn [String.length]. rewrite ValidString_loop_S. unfold utf8.RuneSelf.
  by destruct (Z.ltb_spec (byteZ c) 0x80); [|lia].
Qed.

Lemma wellFormed_2 c0 c1 t :
  0xC2 ≤ byteZ c0 ≤ 0xDF → 0x80 ≤ byteZ c1 ≤ 0xBF →
  wellFormed t → wellFormed (String c0 (String c1 t)).
Proof.
  intros H0 H1 Ht. unfold wellFormed, utf8.ValidString in *.
  cbn [String.length]. rewrite ValidString_loop_S. unfold utf8.RuneSelf.
  destruct (Z.ltb_spec (byteZ c0) 0x80); [lia|].
  rewrite DecodeRune_2 by done. cbn [Nat.eqb str_drop].
  apply (ValidString_loop_mono (String.length t)); [done|lia].
Qed.

Lemma wellFormed_3 c0 c1 c2 t :
  0xE0 ≤ byteZ c0 ≤ 0xEF → 0x80 ≤ byteZ c1 ≤ 0xBF → 0x80 ≤ byteZ c2 ≤ 0xBF →
  (byteZ c0 = 0xE0 → 0xA0 ≤ byteZ c1) → (byteZ c0 = 0xED → byteZ c1 ≤ 0x9F) →
  wellFormed t → wellFormed (String c0 (String c1 (String c2 t))).
Proof.
  intros H0 H1 H2 Hlo Hhi Ht. unfold wellFormed, utf8.ValidString in *.
  cbn [String.length]. rewrite ValidString_loop_S. unfold utf8.RuneSelf.
  destruct (Z.ltb_spec (byteZ c0) 0x80); [lia|].
  rewrite DecodeRune_3 by done. cbn [Nat.eqb str_drop].
  apply (ValidString_loop_mono (String.length t)); [done|lia].
Qed.

Lemma wellFormed_4 c0 c1 c2 c3 t :
  0xF0 ≤ byteZ c0 ≤ 0xF4 → 0x80 ≤ byteZ c1 ≤ 0xBF → 0x80 ≤ byteZ c2 ≤ 0xBF →
  0x80 ≤ byteZ c3 ≤ 0xBF →
  (byteZ c0 = 0xF0 → 0x90 ≤ byteZ c1) → (byteZ c0 = 0xF4 → byteZ c1 ≤ 0x8F) →
  wellFormed t → wellFormed (String c0 (String c1 (String c2 (String c3 t)))).
Proof.
  intros H0 H1 H2 H3 Hlo Hhi Ht. unfold wellFormed, utf8.ValidString in *.
  cbn [String.length]. rewrite ValidString_loop_S. unfold utf8.RuneSelf.
  destruct (Z.ltb_spec (byteZ c0) 0x80); [lia|].
  rewrite DecodeRune_4 by done. cbn [Nat.eqb str_drop].
  apply (ValidString_loop_mono (String.length t)); [done|lia].
Qed.

Ltac byte_bounds := try lia; Z.div_mod_to_equations; lia.

(** Whatever the rune, [EncodeRune] writes well-formed UTF-8. *)
Lemma EncodeRune_wellFormed r t :
  wellFormed t → wellFormed (utf8.EncodeRune r ++ t).
Proof.
  intros Ht.
  unfold utf8.EncodeRune, utf8.MaxRune, utf8.RuneError, utf8.byte.
  repeat case_match; bool_to_Z;
    repeat match goal with H : _ || _ = true |- _ =>
      apply orb_true_iff in H; destruct H; bool_to_Z end;
    try lia;
    rewrite ?Z.shiftr_div_pow2 by lia;
    change 63 with (2 ^ 6 - 1); rewrite ?land_mask by lia;
    change 0xC0 with (3 * 2 ^ 6); change 0x80 with (2 * 2 ^ 6);
    change 0xE0 with (14 * 2 ^ 4); change 0xF0 with (30 * 2 ^ 3);
    rewrite ?lor_tag by byte_bounds;
    cbn [append].
  all: first
    [ apply wellFormed_ascii; [rewrite byteZ_zbyte by byte_bounds; byte_bounds|done]
    | apply wellFormed_2; [rewrite byteZ_zbyte by byte_bounds; byte_bounds..|done]
    | apply wellFormed_3; [rewrite ?byteZ_zbyte by byte_bounds; byte_bounds..|done]
    | apply wellFormed_4; [rewrite ?byteZ_zbyte by byte_bounds; byte_bounds..|done] ].
Qed.

Lemma simpleEscape_ascii b ch : json.simpleEscape b = Some ch → byteZ ch < 0x80.
Proof.
  unfold json.simpleEscape. intros H.
  repeat case_match; simplify_eq; bool_to_Z;
    repeat match goal with H : _ || _ = true |- _ =>
      apply orb_true_iff in H; destruct H; bool_to_Z end;
    subst; by vm_compute.
Qed.

Lemma unquote_step_wellFormed s out r t :
  json.unquote_step s = Some (out, r) → wellFormed t → wellFormed (out ++ t).
Proof.
  unfold json.unquote_step, utf8.RuneSelf. intros H Ht.
  repeat case_match; simplify_eq; bool_to_Z;
    try (by apply EncodeRune_wellFormed).
  - cbn [append]. apply wellFormed_ascii; [|done]. by eapply simpleEscape_ascii.
  - cbn [append]. by apply wellFormed_ascii.
Qed.

Lemma unquote_loop_wellFormed fuel :
  ∀ s out r, json.unquote_loop fuel s = Some (out, r) → wellFormed out.
Proof.
  induction fuel as [|fuel IH]; intros s out r H; [discriminate H|].
  cbn [json.unquote_loop] in H. destruct s as [|c rest]; [discriminate H|].
  destruct (byteZ c =? 0x22); [injection H as <- _; apply wellFormed_nil|].
  destruct (json.unquote_step (String c rest)) as [[o1 r1]|] eqn:Hs; [|discriminate H].
  destruct (json.unquote_loop fuel r1) as [[o2 r2]|] eqn:Hl; [|discriminate H].
  injection H as <- _.
  eapply unquote_step_wellFormed; [exact Hs|]. by eapply IH.
Qed.

(** What the parser returns: a string value is well-formed, and so are the
    string values among the members of an object. *)
Lemma parse_good fuel :
  (∀ d s v r, json.parseValue fuel d s = Some (v, r) →
              goodValue v ∧ ∀ ms, v = json.Object ms → goodMembers ms)
  ∧ (∀ d s acc v r, json.parseMembers fuel d s acc = Some (v, r) → goodMembers acc →
                    ∃ ms, v = json.Object ms ∧ goodMembers ms)
  ∧ (∀ d s acc v r, json.parseElements fuel d s acc = Some (v, r) → ∃ l, v = json.Array l).
Proof.
  induction fuel as [|fuel (IHv & IHm & IHe)].
  { split_and!; intros; discriminate. }
  split_and!.
  - intros d s v r H. cbn [json.parseValue] in H.
    destruct (json.skipSpace s) as [|c rest]; [discriminate H|].
    destruct (byteZ c =? 0x7B).
    { destruct (json.maxNestingDepth <? d + 1); [discriminate H|].
      destruct (json.skipSpace rest) as [|c' rest']; [discriminate H|].
      destruct (byteZ c' =? 0x7D).
      - injection H as <- _. split; [done|]. intros ms [= <-]. constructor.
      - destruct (IHm _ _ _ _ _ H) as (ms & -> & Hms); [constructor|].
        split; [done|]. by intros ms' [= <-]. }
    destruct (byteZ c =? 0x5B).
    { destruct (json.maxNestingDepth <? d + 1); [discriminate H|].
      destruct (json.skipSpace rest) as [|c' rest']; [discriminate H|].
      destruct (byteZ c' =? 0x5D).
      - injection H as <- _. split; [done|]. intros ms [=].
      - destruct (IHe _ _ _ _ _ H) as (l & ->). split; [done|]. intros ms [=]. }
    destruct (byteZ c =? 0x22).
    { unfold json.unquote in H.
      destruct (json.unquote_loop _ rest) as [[str r']|] eqn:Hq; [|discriminate H].
      injection H as <- _. split; [|intros ms [=]].
      by eapply unquote_loop_wellFormed. }
    destruct (byteZ c =? 0x74).
    { unfold json.literal in H. case_match; simplify_eq. split; [done|]. intros ms [=]. }
    destruct (byteZ c =? 0x66).
    { unfold json.literal in H. case_match; simplify_eq. split; [done|]. intros ms [=]. }
    destruct (byteZ c =? 0x6E).
    { unfold json.literal in H. case_match; simplify_eq. split; [done|]. intros ms [=]. }
    destruct (json.number (String c rest)) as [[lit r']|]; [|discriminate H].
    injection H as <- _. split; [done|]. intros ms [=].
  - intros d s acc v r H Hacc. cbn [json.parseMembers] in H.
    destruct (json.skipSpace s) as [|c rest]; [discriminate H|].
    destruct (negb (byteZ c =? 0x22)); [discriminate H|].
    destruct (json.unquote rest) as [[key r1]|]; [|discriminate H].
    destruct (json.skipSpace r1) as [|c2 r2]; [discriminate H|].
    destruct (negb (byteZ c2 =? 0x3A)); [discriminate H|].
    destruct (json.parseValue fuel d r2) as [[v0 r3]|] eqn:Hv; [|discriminate H].
    destruct (IHv _ _ _ _ Hv) as [Hg _].
    assert (goodMembers (acc ++ [(key, v0)])) as Hacc'.
    { apply Forall_app. split; [done|]. by constructor. }
    destruct (json.skipSpace r3) as [|c4 r4]; [discriminate H|].
    destruct (byteZ c4 =? 0x2C); [by eapply IHm|].
    destruct (byteZ c4 =? 0x7D); [|discriminate H].
    injection H as <- _. by eexists.
  - intros d s acc v r H. cbn [json.parseElements] in H.
    destruct (json.parseValue fuel d s) as [[v0 r1]|]; [|discriminate H].
    destruct (json.skipSpace r1) as [|c r2]; [discriminate H|].
    destruct (byteZ c =? 0x2C); [by eapply IHe|].
    destruct (byteZ c =? 0x5D); [|discriminate H].
    injection H as <- _. by eexists.
Qed.

Lemma storeMember_wellFormed u key v :
  wellFormedInfo u → goodValue v → wellFormedInfo (fst (storeMember u key v)).
Proof.
  intros (Hu & Hs & Ht) Hv. unfold storeMember.
  repeat case_match; simplify_eq; cbn [fst]; try done.
Qed.

Lemma storeMembers_wellFormed ms :
  ∀ u, wellFormedInfo u → goodMembers ms → wellFormedInfo (fst (storeMembers u ms)).
Proof.
  induction ms as [|[key v] ms IH]; intros u Hu Hms; [done|].
  inversion Hms as [|? ? Hv Hms']; subst. cbn [storeMembers].
  destruct (storeMember u key v) as [u1 ok1] eqn:H1.
  destruct (storeMembers u1 ms) as [u2 ok2] eqn:H2. cbn [fst].
  replace u2 with (fst (storeMembers u1 ms)) by by rewrite H2.
  apply IH; [|done].
  replace u1 with (fst (storeMember u key v)) by by rewrite H1.
  by apply storeMember_wellFormed.
Qed.

Lemma storeUserInfo_wellFormed v :
  goodValue v → (∀ ms, v = json.Object ms → goodMembers ms) →
  wellFormedInfo (fst (storeUserInfo zeroUserInfo v)).
Proof.
  intros Hv Hms. unfold storeUserInfo.
  destruct v; try done.
  apply storeMembers_wellFormed; [done|]. by apply Hms.
Qed.

(** A preference decoded from bytes, stored ones or those of a request,
    is made of well-formed UTF-8: the decoder replaces what is not. *)
Lemma decoded_wellFormed :
  (∀ data u, Unmarshal_UserInfo data = Some u → wellFormedInfo u)
  ∧ (∀ body u, Decode_UserInfo body = Some u → wellFormedInfo u).
Proof.
  split.
  - intros data u H. unfold Unmarshal_UserInfo, json.Unmarshal_value, json.parse in H.
    destruct (json.parseValue _ _ data) as [[v rest]|] eqn:Hp; [|discriminate H].
    destruct (json.skipSpace rest); [|discriminate H].
    destruct (proj1 (parse_good _) _ _ _ _ Hp) as [Hv Hms].
    pose proof (storeUserInfo_wellFormed v Hv Hms) as Hw.
    destruct (storeUserInfo zeroUserInfo v) as [u' ok]. destruct ok; [|discriminate H].
    by injection H as <-.
  - intros body u H. unfold Decode_UserInfo, json.Decode_value, json.parse in H.
    destruct (json.parseValue _ _ body) as [[v rest]|] eqn:Hp; [|discriminate H].
    destruct (proj1 (parse_good _) _ _ _ _ Hp) as [Hv Hms].
    pose proof (storeUserInfo_wellFormed v Hv Hms) as Hw.
    repeat case_match; simplify_eq; exact Hw.
Qed.

(** ** Reading, writing and reading again *)


(** X6. Of two preferences written for the same user, the second is the one
    read afterwards. *)
Theorem setUserInfo_last_write_wins p u1 u2 s :
  IsValid u1 = None → IsValid u2 = None →
  UserID u1 = UserID u2 →
  wellFormedInfo u2 →
  KVSet_error (services p) (UserID u2) (fst (Marshal_UserInfo u2)) = None →
  KVGet_error (services p) (UserID u2) = None →
  preferenceOf p (snd (setUserInfo p u2 (snd (setUserInfo p u1 s)))) (UserID u1) = Some u2.
Proof.
  intros Hv1 Hv2 Hid Hw Hset Hget. rewrite Hid.
  rewrite (setUserInfo_run p u2) by done. rewrite Hset. cbn [snd].
  rewrite preferenceOf_run. cbn [kv].
  by rewrite Hget, lookup_insert_eq, Unmarshal_Marshal_UserInfo.
Qed.

(** ** The preference endpoints *)

(** [setInfo], case by case. *)
Lemma setInfo_run p w r s :
  setInfo p w r s =
    let userID := Header_Get r "Mattermost-User-ID" in
    if String.eqb userID "" then
      (http_Error "Not authorized to set info" StatusUnauthorized w, s)
    else
    match Decode_UserInfo (req_Body r) with
    | None => (http_Error "Invalid parameter: info" StatusBadRequest w, s)
    | Some info =>
      match IsValid info with
      | Some err => (http_Error ("Invalid info: " ++ err) StatusBadRequest w, s)
      | None =>
        if negb (String.eqb (UserID info) userID) then
          (http_Error "Invalid parameter: user mismatch" StatusBadRequest w, s)
        else
        match KVSet_error (services p) (UserID info) (fst (Marshal_UserInfo info)) with
        | Some _ =>
          (http_Error "Failed to set info" StatusBadRequest w,
           called s [CallKVSet (UserID info) (fst (Marshal_UserInfo info))])
        | None =>
          (Write (fst (Marshal_UserInfo info)) w,
           mkState (<[UserID info := fst (Marshal_UserInfo info)]> (kv s))
             (calls s ++ [CallKVSet (UserID info) (fst (Marshal_UserInfo info));
                          CallPublishWebSocketEvent "info_change"
                            (infoChangePayload info) (UserID info)]))
        end
      end
    end.
Proof.
  unfold setInfo. cbv zeta.
  destruct (String.eqb _ ""); [done|].
  destruct (Decode_UserInfo _) as [info|]; [|done].
  destruct (IsValid info) eqn:Hv; [done|].
  destruct (negb _); [done|].
  rewrite bind_run', setUserInfo_run by done.
  by destruct (KVSet_error _ _ _).
Qed.

(** [getInfo], case by case. *)
Lemma getInfo_run p w r s :
  getInfo p w r s =
    let userID := Header_Get r "Mattermost-User-ID" in
    if String.eqb userID "" then (w, s)
    else
      (match preferenceOf p s userID with
       | Some info => Write (fst (Marshal_UserInfo info)) w
       | None => w
       end, called s [CallKVGet userID]).
Proof.
  unfold getInfo, preferenceOf. cbv zeta.
  destruct (String.eqb _ ""); [done|].
  rewrite bind_run', getUserInfo_run. cbn [fst snd].
  destruct (KVGet_error _ _); [done|].
  destruct (kv s !! _) as [b|]; [|done].
  by destruct (Unmarshal_UserInfo b).
Qed.

(** X18. [setInfo] refuses, and leaves the state as it is, a request without the
    identity of the caller (401), a body that does not decode to a
    preference, a preference that does not pass validation, and a
    preference of another user than the caller (400 each, with its own
    message).  The body does not decode exactly when no first JSON value
    can be read from it or that value is [null]; a first value that is
    neither [null] nor an object (a string, a number, [true], [false], an
    array, whatever follows it) decodes to the empty preference, which
    validation refuses for its [user_id]. *)
Theorem setInfo_refuses_without_effect p w r s :
  rw_status w = None →
  (Header_Get r "Mattermost-User-ID" = "" →
   setInfo p w r s = (http_Error "Not authorized to set info" StatusUnauthorized w, s)
   ∧ rw_status (fst (setInfo p w r s)) = Some StatusUnauthorized)
  ∧ (Header_Get r "Mattermost-User-ID" ≠ "" →
     (Decode_UserInfo (req_Body r) = None →
      setInfo p w r s = (http_Error "Invalid parameter: info" StatusBadRequest w, s))
     ∧ (∀ info err,
          Decode_UserInfo (req_Body r) = Some info → IsValid info = Some err →
          setInfo p w r s = (http_Error ("Invalid info: " ++ err) StatusBadRequest w, s))
     ∧ (∀ info,
          Decode_UserInfo (req_Body r) = Some info → IsValid info = None →
          UserID info ≠ Header_Get r "Mattermost-User-ID" →
          setInfo p w r s
          = (http_Error "Invalid parameter: user mismatch" StatusBadRequest w, s))
     ∧ ((Decode_UserInfo (req_Body r) = None
         ∨ ∃ info, Decode_UserInfo (req_Body r) = Some info
                   ∧ (IsValid info ≠ None
                      ∨ UserID info ≠ Header_Get r "Mattermost-User-ID")) →
        snd (setInfo p w r s) = s
        ∧ rw_status (fst (setInfo p w r s)) = Some StatusBadRequest)
     ∧ (∀ v rest,
          json.parse (req_Body r) = Some (v, rest) →
          v ≠ json.Null → (∀ ms, v ≠ json.Object ms) →
          setInfo p w r s
          = (http_Error "Invalid info: Invalid: user_id field" StatusBadRequest w, s)))
  ∧ (Decode_UserInfo (req_Body r) = None ↔
     json.parse (req_Body r) = None
     ∨ ∃ rest, json.parse (req_Body r) = Some (json.Null, rest)).
Proof.
  intros Hw. split_and!.
  - rewrite setInfo_run. cbv zeta.
    intros ->. cbn [String.eqb fst]. split; [done|].
    by apply rw_status_http_Error_fresh.
  - rewrite setInfo_run. cbv zeta.
    intros Hu. destruct (String.eqb_spec (Header_Get r "Mattermost-User-ID") "");
      [done|].
    split_and!.
    + by intros ->.
    + by intros info err -> ->.
    + intros info -> -> Hne.
      by destruct (String.eqb_spec (UserID info) (Header_Get r "Mattermost-User-ID")).
    + intros [-> | (info & -> & H)].
      { split; [done|]. by apply rw_status_http_Error_fresh. }
      destruct (IsValid info) eqn:Hv.
      { split; [done|]. by apply rw_status_http_Error_fresh. }
      destruct H as [H|H]; [done|].
      destruct (String.eqb_spec (UserID info) (Header_Get r "Mattermost-User-ID"));
        [done|].
      split; [done|]. by apply rw_status_http_Error_fresh.
    + intros v rest Hp Hnull Hobj.
      assert (Decode_UserInfo (req_Body r) = Some zeroUserInfo) as ->.
      { unfold Decode_UserInfo, json.Decode_value. rewrite Hp.
        destruct v; try done. by destruct (Hobj l). }
      reflexivity.
  - unfold Decode_UserInfo, json.Decode_value.
    destruct (json.parse (req_Body r)) as [[v rest]|]; [|by split; [left|]].
    destruct v; (split; [try done; by right; eexists|]);
      intros [?|(? & ?)]; done.
Qed.

(** X19. [setInfo] touches the store only under the identifier of the caller,
    and what it puts there is the encoding of a valid preference of that
    caller. *)
Theorem setInfo_writes_only_own_key p w r s :
  (∀ key, key ≠ Header_Get r "Mattermost-User-ID" →
          kv (snd (setInfo p w r s)) !! key = kv s !! key)
  ∧ (kv (snd (setInfo p w r s)) = kv s
     ∨ ∃ info, IsValid info = None
               ∧ UserID info = Header_Get r "Mattermost-User-ID"
               ∧ Decode_UserInfo (req_Body r) = Some info
               ∧ kv (snd (setInfo p w r s))
                 = <[UserID info := fst (Marshal_UserInfo info)]> (kv s)).
Proof.
  rewrite setInfo_run. cbv zeta.
  destruct (String.eqb _ ""); [by split; [|left]|].
  destruct (Decode_UserInfo _) as [info|]; [|by split; [|left]].
  destruct (IsValid info) eqn:Hv; [by split; [|left]|].
  destruct (String.eqb_spec (UserID info) (Header_Get r "Mattermost-User-ID"))
    as [Hid|]; [|by split; [|left]].
  cbn [negb].
  destruct (KVSet_error _ _ _); [by split; [|left]|].
  cbn [snd kv]. split.
  - intros key Hk. rewrite lookup_insert_ne; [done|congruence].
  - right. by exists info.
Qed.

(** X20. When every check passes and the store refuses the write, [setInfo]
    answers 400: the store is as it was and nothing is announced. *)
Theorem setInfo_store_failure p w r s info e :
  rw_status w = None →
  Header_Get r "Mattermost-User-ID" ≠ "" →
  Decode_UserInfo (req_Body r) = Some info →
  IsValid info = None →
  UserID info = Header_Get r "Mattermost-User-ID" →
  KVSet_error (services p) (UserID info) (fst (Marshal_UserInfo info)) = Some e →
  setInfo p w r s
  = (http_Error "Failed to set info" StatusBadRequest w,
     called s [CallKVSet (UserID info) (fst (Marshal_UserInfo info))])
  ∧ rw_status (fst (setInfo p w r s)) = Some StatusBadRequest.
Proof.
  intros Hw Hu Hd Hv Hid He. rewrite setInfo_run. cbv zeta.
  destruct (String.eqb_spec (Header_Get r "Mattermost-User-ID") ""); [done|].
  rewrite Hd, Hv, Hid, String.eqb_refl, <- Hid, He. cbn [negb fst].
  split; [done|]. by apply rw_status_http_Error_fresh.
Qed.

(** X21. What [setInfo] accepted is what [getInfo] answers to the same caller,
    byte for byte: the preference decoded from the request is well-formed
    UTF-8, so it comes back from the store as it went. *)
Theorem getInfo_after_setInfo p w r s w' r' info :
  Header_Get r "Mattermost-User-ID" ≠ "" →
  Decode_UserInfo (req_Body r) = Some info →
  IsValid info = None →
  UserID info = Header_Get r "Mattermost-User-ID" →
  KVSet_error (services p) (UserID info) (fst (Marshal_UserInfo info)) = None →
  KVGet_error (services p) (UserID info) = None →
  Header_Get r' "Mattermost-User-ID" = Header_Get r "Mattermost-User-ID" →
  fst (setInfo p w r s) = Write (fst (Marshal_UserInfo info)) w
  ∧ fst (getInfo p w' r' (snd (setInfo p w r s))) = Write (fst (Marshal_UserInfo info)) w'.
Proof.
  intros Hu Hd Hv Hid Hset Hget Hr'.
  pose proof (proj2 decoded_wellFormed _ _ Hd) as Hw.
  rewrite setInfo_run, getInfo_run. cbv zeta. rewrite Hr'.
  destruct (String.eqb_spec (Header_Get r "Mattermost-User-ID") ""); [done|].
  rewrite Hd, Hv, Hid, String.eqb_refl, <- Hid, Hset. cbn [negb fst snd].
  split; [done|]. rewrite preferenceOf_run. cbn [kv].
  by rewrite Hget, lookup_insert_eq, Unmarshal_Marshal_UserInfo.
Qed.

(** X22. [getInfo] stays silent, leaving the response as it is, for a request
    without the identity of the caller and for a caller of whom no
    preference can be read. *)
Theorem getInfo_silent p w r s :
  Header_Get r "Mattermost-User-ID" = ""
  ∨ preferenceOf p s (Header_Get r "Mattermost-User-ID") = None →
  fst (getInfo p w r s) = w.
Proof.
  intros H. rewrite getInfo_run. cbv zeta.
  destruct (String.eqb_spec (Header_Get r "Mattermost-User-ID") "") as [E|E]; [done|].
  destruct H as [H|H]; [done|]. by rewrite H.
Qed.

(** ** Routing *)

Lemma rw_sent_Write_fresh b w :
  rw_sent w = None → rw_sent (Write b w) = Some (StatusOK, rw_header w).
Proof. intros H. unfold Write, WriteHeader. by rewrite H. Qed.

Lemma rw_sent_http_Error_fresh msg code w :
  rw_sent w = None →
  ∃ hdrs, rw_sent (http_Error msg code w) = Some (code, hdrs)
          ∧ hdrs !! "Content-Type" = Some "text/plain; charset=utf-8".
Proof.
  intros H. unfold http_Error, Write, WriteHeader, Header_Set. cbn [rw_sent rw_header].
  rewrite H. cbn [rw_sent]. eexists. split; [reflexivity|].
  rewrite lookup_insert_ne by done. apply lookup_insert_eq.
Qed.

(** What a handler leaves of the response: nothing, a body written, or an
    error of the 400s. *)
Lemma route_outcome p w r s :
  fst (route p w r s) = w
  ∨ (∃ b, fst (route p w r s) = Write b w)
  ∨ (∃ msg code, fst (route p w r s) = http_Error msg code w ∧ code ≠ StatusOK).
Proof.
  unfold route, http_NotFound.
  repeat case_match; cbn [fst ret mret M_ret];
    rewrite ?getGo_run, ?getInfo_run, ?setInfo_run; cbv zeta;
    repeat case_match; cbn [fst];
    first [ by left
          | by (right; left; eexists)
          | by (right; right; eexists _, _) ].
Qed.

(** X23. A path other than the three served is answered 404 and nothing
    happens. *)
Theorem ServeHTTP_not_found p w r s :
  Plugin_IsValid (getConfiguration p) = None →
  rw_status w = None →
  req_Path r ≠ "/api/go" → req_Path r ≠ "/api/get_info" → req_Path r ≠ "/api/set_info" →
  snd (ServeHTTP p w r s) = s
  ∧ rw_status (fst (ServeHTTP p w r s)) = Some StatusNotFound
  ∧ rw_body (fst (ServeHTTP p w r s)) = rw_body w ++ "404 page not found" ++ nl.
Proof.
  intros Hc Hw H1 H2 H3. unfold ServeHTTP, route. rewrite Hc.
  destruct (String.eqb_spec (req_Path r) "/api/go"); [done|].
  destruct (String.eqb_spec (req_Path r) "/api/get_info"); [done|].
  destruct (String.eqb_spec (req_Path r) "/api/set_info"); [done|].
  cbn [ret mret M_ret fst snd]. split_and!; [done| |].
  - unfold http_NotFound. by apply rw_status_http_Error_fresh.
  - unfold http_NotFound, http_Error, Write, WriteHeader, Header_Set.
    cbn [rw_sent rw_header rw_body]. by destruct (rw_sent w).
Qed.

(** X24. The content type a configured plugin sends: [application/json] with a
    status of 200, plain text with any other status. *)
Theorem ServeHTTP_content_type p w r s code hdrs :
  Plugin_IsValid (getConfiguration p) = None →
  rw_sent w = None →
  rw_sent (fst (ServeHTTP p w r s)) = Some (code, hdrs) →
  hdrs !! "Content-Type"
  = Some (if code =? StatusOK then "application/json" else "text/plain; charset=utf-8").
Proof.
  intros Hc Hw. unfold ServeHTTP. rewrite Hc.
  set (w1 := Header_Set "Content-Type" "application/json" w).
  assert (rw_sent w1 = None) as Hw1 by done.
  assert (rw_header w1 !! "Content-Type" = Some "application/json") as Hct
    by apply lookup_insert_eq.
  destruct (route_outcome p w1 r s) as [-> | [(b & ->) | (msg & c & -> & Hne)]].
  - by rewrite Hw1.
  - rewrite rw_sent_Write_fresh by done. by intros [= <- <-].
  - destruct (rw_sent_http_Error_fresh msg c w1 Hw1) as (h & -> & Hh).
    intros [= <- <-]. by destruct (Z.eqb_spec c StatusOK).
Qed.
End Server.

(** * Scenarios *)

Lemma setUserInfo_refuses_equal_or_auto_target_witness :
  SourceLanguage (mkUserInfo sampleUserID true "en" "en")
  = TargetLanguage (mkUserInfo sampleUserID true "en" "en")
  ∧ ∃ msg,
    IsValid sampleCatalog (mkUserInfo sampleUserID true "en" "en") = Some msg
    ∧ setUserInfo sampleCatalog samplePlugin (mkUserInfo sampleUserID true "en" "en") emptyState
      = (Some (mkAPIErrorResponse "invalid_user_info" msg StatusBadRequest), emptyState).
Proof.
  split; [reflexivity|].
  apply (setUserInfo_refuses_equal_or_auto_target sampleCatalog). left. reflexivity.
Defined.

Lemma getUserInfo_errors_witness :
  kv emptyState !! sampleUserID = None
  ∧ fst (getUserInfo samplePlugin sampleUserID emptyState) = (None, Some noRecordFound).
Proof.
  split; [reflexivity|].
  apply (proj1 (getUserInfo_errors samplePlugin sampleUserID emptyState)).
  right. reflexivity.
Defined.

Lemma hook_passes_through_without_active_preference_witness :
  MessageWillBePosted sampleCatalog frenchPlugin englishPost
    (stored (mkUserInfo sampleUserID false "en" "fr"))
  = ((englishPost, ""),
     called (stored (mkUserInfo sampleUserID false "en" "fr")) [CallKVGet sampleUserID]).
Proof.
  apply (hook_passes_through_without_active_preference sampleCatalog).
  right. exists (fst (Marshal_UserInfo (mkUserInfo sampleUserID false "en" "fr"))),
           (mkUserInfo sampleUserID false "en" "fr").
  split; [|split]; vm_compute; reflexivity.
Defined.

(** C1, refuted as stated: with an active preference whose source is
    [auto] and a detection service that fails, the hook returns a
    rejection reason that is not empty. *)
Lemma hook_rejects_when_detection_fails :
  snd (fst (MessageWillBePosted sampleCatalog samplePlugin englishPost
              (stored (NewUserInfo sampleUserID))))
  = "Failed to detect language"
  ∧ snd (fst (MessageWillBePosted sampleCatalog samplePlugin englishPost
                (stored (NewUserInfo sampleUserID)))) ≠ "".
Proof. split; [vm_compute; reflexivity|vm_compute; discriminate]. Defined.

Lemma hook_rejection_reason_witness :
  ∃ u, preferenceOf samplePlugin (stored (NewUserInfo sampleUserID)) (post_UserId englishPost)
       = Some u
       ∧ Activated u = true
       ∧ resolved samplePlugin (post_Message englishPost) (SourceLanguage u) = None.
Proof.
  assert (MessageWillBePosted sampleCatalog samplePlugin englishPost
            (stored (NewUserInfo sampleUserID))
          = ((englishPost, "Failed to detect language"),
             snd (MessageWillBePosted sampleCatalog samplePlugin englishPost
                    (stored (NewUserInfo sampleUserID))))) as H
    by (vm_compute; reflexivity).
  destruct (hook_rejection_reason sampleCatalog _ _ _ _ _ _ H) as (_ & _ & [H1 _] & _).
  apply H1. reflexivity.
Defined.

Lemma detection_only_for_auto_witness :
  "en" ≠ autoLanguage ∧ ∀ text, resolved samplePlugin text "en" = Some "en".
Proof.
  split; [discriminate|].
  apply (detection_only_for_auto sampleCatalog samplePlugin "en"). discriminate.
Defined.

Lemma getGo_translates_equal_languages_witness :
  resolved englishPlugin (post_Message englishPost) (Query_Get goRequest "source")
  = Some (Query_Get goRequest "target")
  ∧ CallTranslateText "Hello" "en" "en"
    ∈ calls (snd (getGo englishPlugin newResponseWriter goRequest emptyState)).
Proof.
  split; [vm_compute; reflexivity|].
  apply (getGo_translates_equal_languages englishPlugin newResponseWriter goRequest
           emptyState englishPost).
  - vm_compute. discriminate.
  - vm_compute. reflexivity.
  - reflexivity.
  - vm_compute. reflexivity.
Defined.


Lemma hook_annotates_translation_witness :
  post_Message (fst (fst (MessageWillBePosted sampleCatalog frenchPlugin englishPost
                             (stored samplePreference))))
  = "Hello" ++ nl ++ nl ++ "(Translated: English → French)" ++ nl ++ "Bonjour".
Proof.
  apply (proj2 (hook_annotates_translation sampleCatalog frenchPlugin englishPost
                  (stored samplePreference) samplePreference "en" "Bonjour"
                  ltac:(vm_compute; reflexivity) eq_refl
                  ltac:(vm_compute; reflexivity) ltac:(discriminate)
                  ltac:(vm_compute; reflexivity) ltac:(discriminate)));
    reflexivity.
Defined.

(** C6, refuted as stated: a preference that passes validation, with a
    byte in its user identifier that is not UTF-8, is written without
    error, and what is read back under the same identifier is another
    preference: the encoder has replaced the byte. *)
Lemma getUserInfo_after_setUserInfo_stray_byte :
  IsValid sampleCatalog strayPreference = None
  ∧ fst (setUserInfo sampleCatalog samplePlugin strayPreference emptyState) = None
  ∧ ∃ u, fst (getUserInfo samplePlugin (UserID strayPreference)
                (snd (setUserInfo sampleCatalog samplePlugin strayPreference emptyState)))
         = (Some u, None)
         ∧ u ≠ strayPreference.
Proof.
  split; [vm_compute; reflexivity|]. split; [vm_compute; reflexivity|].
  eexists. split; [vm_compute; reflexivity|]. vm_compute. discriminate.
Defined.

Lemma getUserInfo_after_setUserInfo_witness :
  ∃ s1, setUserInfo sampleCatalog samplePlugin samplePreference emptyState = (None, s1)
        ∧ kv s1 !! UserID samplePreference = Some (fst (Marshal_UserInfo samplePreference))
        ∧ fst (getUserInfo samplePlugin (UserID samplePreference) s1)
          = (Some samplePreference, None).
Proof.
  apply (getUserInfo_after_setUserInfo sampleCatalog samplePlugin samplePreference emptyState).
  - vm_compute. reflexivity.
  - repeat split; vm_compute; reflexivity.
  - reflexivity.
  - reflexivity.
Defined.

(** C2, at a failing input.  An unconfigured plugin receives
    [POST /api/set_info] with a valid preference of the caller: the status
    sent is 501, and yet the request is routed and handled: the preference
    is written to the store, the change is announced, and the encoded
    preference follows the error text in the body. *)
Theorem ServeHTTP_unconfigured_still_handles_set_info :
  Plugin_IsValid (getConfiguration unconfiguredPlugin) ≠ None
  ∧ let '(w, s) :=
      ServeHTTP sampleCatalog unconfiguredPlugin newResponseWriter setInfoRequest emptyState in
    rw_status w = Some StatusNotImplemented
    ∧ kv s !! sampleUserID = Some (fst (Marshal_UserInfo samplePreference))
    ∧ calls s
      = [CallKVSet sampleUserID (fst (Marshal_UserInfo samplePreference));
         CallPublishWebSocketEvent "info_change"
           (<["user_id" := VString sampleUserID]>
            (<["activated" := VBool true]>
             (<["source_language" := VString "en"]>
              (<["target_language" := VString "fr"]> ∅))))
           sampleUserID]
    ∧ rw_body w = "This plugin is not configured." ++ nl
                    ++ fst (Marshal_UserInfo samplePreference).
Proof. split; [discriminate|]. vm_compute. split_and!; reflexivity. Qed.

(** ** Further scenarios of the specification *)

(** A translation identical to the text leaves the post as it came. *)
Example hook_identical_translation :
  fst (MessageWillBePosted sampleCatalog englishPlugin englishPost (stored samplePreference))
  = (englishPost, "").
Proof. vm_compute. reflexivity. Qed.

(** With the source [auto], detection is called once and the translation
    is asked from the detected language to the target. *)
Example hook_detects_then_translates :
  MessageWillBePosted sampleCatalog spanishPlugin spanishPost (stored (NewUserInfo sampleUserID))
  = ((withMessage spanishPost
        ("Hola" ++ nl ++ nl ++ "(Translated: es → English)" ++ nl ++ "Hello"), ""),
     called (stored (NewUserInfo sampleUserID))
       [CallKVGet sampleUserID;
        CallDetectDominantLanguage "Hola";
        CallTranslateText "Hola" "es" "en"]).
Proof. vm_compute. reflexivity. Qed.

(** A preference sent for another user than the caller is answered 400
    and nothing is stored. *)
Example setInfo_user_mismatch :
  let '(w, s) := ServeHTTP sampleCatalog samplePlugin newResponseWriter
                   foreignSetInfoRequest emptyState in
  rw_status w = Some StatusBadRequest
  ∧ rw_body w = "Invalid parameter: user mismatch" ++ nl
  ∧ s = emptyState.
Proof. vm_compute. split_and!; reflexivity. Qed.

(** The decoder takes the members in any order, with white space and
    escapes, and matches the names without regard to case. *)
Example Unmarshal_UserInfo_liberal :
  Unmarshal_UserInfo
    (" { " ++ json.member "TARGET_LANGUAGE" (json.encodeString "fr") ++ " , "
       ++ json.member "activated" "true" ++ ","
       ++ json.member "user_id" (String dq (String bslash ("u0075" ++ String dq "")))
       ++ "," ++ json.member "extra" "[1, 2.5e3, null]" ++ "} ")
  = Some (mkUserInfo "u" true "" "fr").
Proof. vm_compute. reflexivity. Qed.

(** A key matches a field name also when it spells [s] as the long s;
    the Kelvin sign matches [k]; no other rune beyond ASCII matches a
    letter. *)
Example Unmarshal_UserInfo_folds :
  Unmarshal_UserInfo ("{" ++ json.member longSUserID (json.encodeString "x") ++ "}")
  = Some (mkUserInfo "x" false "" "")
  ∧ json.equalFold "k" kelvinSign = true
  ∧ json.equalFold "user_id" (String "u" (String (zbyte 0xC5) (String (zbyte 0xBE) "er_id")))
    = false.
Proof. vm_compute. split_and!; reflexivity. Qed.

(** [Decoder.Decode] reads the first value and leaves what follows: a
    scalar followed by any byte is read, and allocates the preference;
    [null] leaves the pointer nil; a value cut short is an error. *)
Example Decode_UserInfo_first_value :
  Decode_UserInfo "truex" = Some zeroUserInfo
  ∧ Decode_UserInfo "1x" = Some zeroUserInfo
  ∧ Decode_UserInfo "[] ]" = Some zeroUserInfo
  ∧ Decode_UserInfo ("{" ++ json.member "user_id" (json.encodeString "x") ++ "}}")
    = Some (mkUserInfo "x" false "" "")
  ∧ Decode_UserInfo "nullx" = None
  ∧ Decode_UserInfo "tru" = None
  ∧ Decode_UserInfo "1.x" = None
  ∧ Decode_UserInfo "" = None.
Proof. vm_compute. split_and!; reflexivity. Qed.

(** Ten thousand arrays one inside the other are read, one more is
    refused. *)
Example Decode_UserInfo_depth :
  Decode_UserInfo (copies 10000 "[" ++ copies 10000 "]") = Some zeroUserInfo
  ∧ Decode_UserInfo (copies 10001 "[" ++ copies 10001 "]") = None.
Proof. vm_compute. split; reflexivity. Qed.

(** A value of the wrong type for a field, or bytes after the value, make
    [json.Unmarshal] fail. *)
Example Unmarshal_UserInfo_strict :
  Unmarshal_UserInfo ("{" ++ json.member "activated" "1" ++ "}") = None
  ∧ Unmarshal_UserInfo ("{}" ++ "x") = None
  ∧ Unmarshal_UserInfo "null" = Some zeroUserInfo.
Proof. vm_compute. split_and!; reflexivity. Qed.

(** ** Scenarios of the further properties *)

Lemma setUserInfo_store_failure_witness :
  snd (setUserInfo sampleCatalog readOnlyPlugin samplePreference emptyState)
  = called emptyState [CallKVSet sampleUserID (fst (Marshal_UserInfo samplePreference))].
Proof.
  rewrite (setUserInfo_store_failure sampleCatalog readOnlyPlugin samplePreference emptyState
             (mkAppError "KVSet" "app.plugin_store.save.app_error" ""
                StatusInternalServerError)
             ltac:(vm_compute; reflexivity) eq_refl).
  reflexivity.
Defined.

Lemma setUserInfo_success_effects_witness :
  ∃ s1, setUserInfo sampleCatalog samplePlugin samplePreference emptyState = (None, s1)
        ∧ kv s1 !! sampleUserID = Some (fst (Marshal_UserInfo samplePreference)).
Proof.
  destruct (setUserInfo_success_effects sampleCatalog samplePlugin samplePreference
              emptyState ltac:(vm_compute; reflexivity) eq_refl)
    as (s1 & H1 & H2 & _).
  exists s1. split; [exact H1|exact H2].
Defined.

Lemma setUserInfo_leaves_other_users_witness :
  fst (getUserInfo samplePlugin otherUserID
         (snd (setUserInfo sampleCatalog samplePlugin samplePreference emptyState)))
  = fst (getUserInfo samplePlugin otherUserID emptyState).
Proof.
  apply (setUserInfo_leaves_other_users sampleCatalog samplePlugin samplePreference
           emptyState otherUserID).
  discriminate.
Defined.


Lemma setUserInfo_last_write_wins_witness :
  preferenceOf samplePlugin
    (snd (setUserInfo sampleCatalog samplePlugin samplePreference
            (snd (setUserInfo sampleCatalog samplePlugin (NewUserInfo sampleUserID)
                    emptyState))))
    sampleUserID
  = Some samplePreference.
Proof.
  apply (setUserInfo_last_write_wins sampleCatalog samplePlugin
           (NewUserInfo sampleUserID) samplePreference emptyState
           ltac:(vm_compute; reflexivity) ltac:(vm_compute; reflexivity) eq_refl
           ltac:(repeat split; vm_compute; reflexivity) eq_refl eq_refl).
Defined.

Lemma hook_skips_identical_translation_witness :
  fst (MessageWillBePosted sampleCatalog englishPlugin englishPost (stored samplePreference))
  = (englishPost, "").
Proof.
  apply (hook_skips_identical_translation sampleCatalog englishPlugin englishPost
           (stored samplePreference) samplePreference "en"
           ltac:(vm_compute; reflexivity) eq_refl
           ltac:(vm_compute; reflexivity) ltac:(vm_compute; reflexivity)).
Defined.

Lemma hook_skips_equal_languages_witness :
  fst (MessageWillBePosted sampleCatalog englishPlugin englishPost
         (stored (NewUserInfo sampleUserID)))
  = (englishPost, "").
Proof.
  apply (hook_skips_equal_languages sampleCatalog englishPlugin englishPost
           (stored (NewUserInfo sampleUserID)) (NewUserInfo sampleUserID)
           ltac:(vm_compute; reflexivity) ltac:(vm_compute; reflexivity)).
Defined.

Lemma hook_detects_once_witness :
  ∃ cs, calls (snd (MessageWillBePosted sampleCatalog spanishPlugin spanishPost
                      (stored (NewUserInfo sampleUserID))))
        = (calls (stored (NewUserInfo sampleUserID))
             ++ [CallKVGet (post_UserId spanishPost);
                 CallDetectDominantLanguage (post_Message spanishPost)] ++ cs)%list
        ∧ Forall (λ c, isDetect c = false) cs.
Proof.
  apply (hook_detects_once sampleCatalog spanishPlugin spanishPost
           (stored (NewUserInfo sampleUserID)) (NewUserInfo sampleUserID)
           ltac:(vm_compute; reflexivity) eq_refl eq_refl eq_refl).
Defined.

Lemma no_remote_call_without_credentials_witness :
  detectLanguage unconfiguredPlugin "Hello" emptyState
  = (("", Some "Invalid AWS credentials"), emptyState).
Proof.
  apply (proj1 (no_remote_call_without_credentials unconfiguredPlugin emptyState
                  (or_introl eq_refl))).
Defined.

Lemma detectLanguage_first_language_witness :
  fst (detectLanguage spanishPlugin "Hola" emptyState) = ("es", None).
Proof.
  apply (proj1 (detectLanguage_first_language spanishPlugin "Hola" emptyState eq_refl)).
  exists ["pt"]. reflexivity.
Defined.

Lemma getGo_refuses_early_witness :
  getGo samplePlugin newResponseWriter goRequest emptyState
  = (http_Error "No post to translate" StatusBadRequest newResponseWriter,
     called emptyState [CallGetPost (Query_Get goRequest "post_id")])
  ∧ rw_status (fst (getGo samplePlugin newResponseWriter goRequest emptyState))
    = Some StatusBadRequest.
Proof.
  apply (proj2 (getGo_refuses_early samplePlugin newResponseWriter goRequest emptyState
                  eq_refl)).
  - vm_compute. discriminate.
  - reflexivity.
Defined.

Lemma getGo_remote_failures_witness :
  fst (getGo mutePlugin newResponseWriter goRequest emptyState)
  = http_Error "Language detection failed" StatusBadRequest newResponseWriter.
Proof.
  apply (proj1 (getGo_remote_failures mutePlugin newResponseWriter goRequest emptyState
                  englishPost eq_refl ltac:(vm_compute; discriminate)
                  ltac:(vm_compute; reflexivity))).
  vm_compute. reflexivity.
Defined.

Lemma getGo_response_witness :
  rw_status (fst (getGo englishPlugin newResponseWriter goFrenchRequest emptyState))
  = Some StatusOK.
Proof.
  apply (getGo_response englishPlugin newResponseWriter goFrenchRequest emptyState
           englishPost "en" "Hello" eq_refl ltac:(vm_compute; discriminate)
           ltac:(vm_compute; reflexivity) ltac:(vm_compute; reflexivity)
           ltac:(vm_compute; reflexivity)).
Defined.

Lemma setInfo_refuses_without_effect_witness :
  setInfo sampleCatalog samplePlugin newResponseWriter foreignSetInfoRequest emptyState
  = (http_Error "Invalid parameter: user mismatch" StatusBadRequest newResponseWriter,
     emptyState)
  ∧ setInfo sampleCatalog samplePlugin newResponseWriter scalarSetInfoRequest emptyState
    = (http_Error "Invalid info: Invalid: user_id field" StatusBadRequest
         newResponseWriter,
       emptyState).
Proof.
  split.
  - destruct (setInfo_refuses_without_effect sampleCatalog samplePlugin newResponseWriter
                foreignSetInfoRequest emptyState eq_refl) as (_ & H & _).
    destruct (H ltac:(vm_compute; discriminate)) as (_ & _ & H3 & _).
    apply (H3 samplePreference).
    + vm_compute. reflexivity.
    + vm_compute. reflexivity.
    + vm_compute. discriminate.
  - destruct (setInfo_refuses_without_effect sampleCatalog samplePlugin newResponseWriter
                scalarSetInfoRequest emptyState eq_refl) as (_ & H & _).
    destruct (H ltac:(vm_compute; discriminate)) as (_ & _ & _ & _ & H5).
    apply (H5 (json.Bool true) "x").
    + vm_compute. reflexivity.
    + discriminate.
    + discriminate.
Defined.

Lemma setInfo_store_failure_witness :
  rw_status (fst (setInfo sampleCatalog readOnlyPlugin newResponseWriter setInfoRequest
                    emptyState))
  = Some StatusBadRequest.
Proof.
  apply (setInfo_store_failure sampleCatalog readOnlyPlugin newResponseWriter
           setInfoRequest emptyState samplePreference
           (mkAppError "KVSet" "app.plugin_store.save.app_error" ""
              StatusInternalServerError)
           eq_refl ltac:(vm_compute; discriminate) ltac:(vm_compute; reflexivity)
           ltac:(vm_compute; reflexivity) ltac:(vm_compute; reflexivity) eq_refl).
Defined.

Lemma getInfo_after_setInfo_witness :
  fst (getInfo samplePlugin newResponseWriter getInfoRequest
         (snd (setInfo sampleCatalog samplePlugin newResponseWriter setInfoRequest
                 emptyState)))
  = Write (fst (Marshal_UserInfo samplePreference)) newResponseWriter.
Proof.
  apply (getInfo_after_setInfo sampleCatalog samplePlugin newResponseWriter
           setInfoRequest emptyState newResponseWriter getInfoRequest samplePreference
           ltac:(vm_compute; discriminate) ltac:(vm_compute; reflexivity)
           ltac:(vm_compute; reflexivity) ltac:(vm_compute; reflexivity)
           eq_refl eq_refl ltac:(vm_compute; reflexivity)).
Defined.

Lemma getInfo_silent_witness :
  fst (getInfo samplePlugin newResponseWriter getInfoRequest emptyState)
  = newResponseWriter.
Proof.
  apply (getInfo_silent samplePlugin newResponseWriter getInfoRequest emptyState).
  right. vm_compute. reflexivity.
Defined.

Lemma ServeHTTP_not_found_witness :
  snd (ServeHTTP sampleCatalog samplePlugin newResponseWriter strangeRequest emptyState)
  = emptyState
  ∧ rw_status (fst (ServeHTTP sampleCatalog samplePlugin newResponseWriter strangeRequest
                      emptyState))
    = Some StatusNotFound.
Proof.
  destruct (ServeHTTP_not_found sampleCatalog samplePlugin newResponseWriter
              strangeRequest emptyState eq_refl eq_refl
              ltac:(vm_compute; discriminate) ltac:(vm_compute; discriminate)
              ltac:(vm_compute; discriminate)) as (H1 & H2 & _).
  split; [exact H1|exact H2].
Defined.

Lemma ServeHTTP_content_type_witness :
  ∃ hdrs,
    rw_sent (fst (ServeHTTP sampleCatalog englishPlugin newResponseWriter goFrenchRequest
                    emptyState))
    = Some (StatusOK, hdrs)
    ∧ hdrs !! "Content-Type" = Some "application/json".
Proof.
  eexists. split; [vm_compute; reflexivity|].
  apply (ServeHTTP_content_type sampleCatalog englishPlugin newResponseWriter
           goFrenchRequest emptyState StatusOK _ eq_refl eq_refl).
  vm_compute. reflexivity.
Defined.

Lemma ServeHTTP_unconfigured_status_witness :
  rw_status (fst (ServeHTTP sampleCatalog unconfiguredPlugin newResponseWriter
                    getInfoRequest emptyState))
  = Some StatusNotImplemented.
Proof.
  apply (ServeHTTP_unconfigured_status sampleCatalog unconfiguredPlugin newResponseWriter
           getInfoRequest emptyState "Must have AWS Access Key ID" eq_refl eq_refl).
Defined.
